(** * Wikipedia RAG question answering: the query pipeline of [wiki_app.py]

    A shallow embedding of [retrieve_and_generate] and of the button handler
    that calls it.  The Weaviate client is an external service: it is a
    record of handlers over an arbitrary backend state, every handler may
    raise, and every request the program issues is appended to a trace.

    [retrieve_and_generate] is the function as lines 16 to 63 define it.
    The decorator left above it on line 12 is [st_cache_resource]; the
    handler calls the function through it. *)

From Stdlib Require Import ZArith Ascii String List Bool DecimalString PrimFloat.
From stdpp Require Import gmap strings list fin_maps.

Local Open Scope Z_scope.

Set Warnings "-inexact-float".

(** ** Python values and exceptions *)

(** The values found in an object's [properties] dictionary. *)
Inductive PyVal : Type :=
| PyNone
| PyStr (s : string)
| PyInt (z : Z).

Inductive PyExn : Type :=
| KeyError (key : string)
| BackendError (msg : string).

(** The line feed written [\n] in the Python source. *)
Definition nl : string := String "010"%char EmptyString.

(** [str(v)], which is what an f-string field without a format spec
    shows, wherever [str] returns; [str_returns] below says where that
    is. *)
Definition py_str (v : PyVal) : string :=
  match v with
  | PyNone => "None"
  | PyStr s => s
  | PyInt z => NilZero.string_of_int (Z.to_int z)
  end.

(** [sep.join(parts)]. *)
Definition py_join (sep : string) (parts : list string) : string :=
  String.concat sep parts.

(** Truth value of a string: only the empty string is falsy. *)
Definition py_truthy (s : string) : bool :=
  match s with
  | EmptyString => false
  | String _ _ => true
  end.

(** ** Exceptions as a sum, with the usual bind *)

Class PyMonad (m : Type -> Type) : Type := {
  ret : forall {A}, A -> m A;
  bind : forall {A B}, m A -> (A -> m B) -> m B;
  raise : forall {A}, PyExn -> m A
}.

Notation "x <- c ;; k" := (bind c (fun x => k))
  (at level 100, c at next level, right associativity).

Definition Exc (A : Type) : Type := (PyExn + A)%type.

#[export] Instance Exc_monad : PyMonad Exc := {
  ret _ a := inr a;
  bind _ _ c k := match c with inl e => inl e | inr a => k a end;
  raise _ e := inl e
}.

(** A list comprehension whose element expression may raise: elements are
    evaluated left to right and the first exception ends the evaluation. *)
Fixpoint comprehension {m} `{PyMonad m} {A B} (f : A -> m B) (l : list A)
  : m (list B) :=
  match l with
  | [] => ret []
  | x :: rest =>
      y <- f x ;;
      ys <- comprehension f rest ;;
      ret (y :: ys)
  end.

(** [d[k]] on a dictionary. *)
Definition subscript (d : gmap string PyVal) (k : string) : Exc PyVal :=
  match d !! k with
  | Some v => ret v
  | None => raise (KeyError k)
  end.

(** ** What the Weaviate client hands back *)

Record Collection : Type := { collection_name : string }.

Record MetadataReturn : Type := { distance : option float }.

Record Object : Type := {
  properties : gmap string PyVal;
  metadata : MetadataReturn
}.

(** The reply to a query: the ranked objects. *)
Record QueryReturn : Type := { objects : list Object }.

(** The reply to a generative query: the text generated for the grouped
    task, and the objects of that query's own search, over which the text
    was generated. *)
Record GenerativeReturn : Type := {
  generated : string;
  generative_objects : list Object
}.

(** The requests [wiki_app.py] sends through the client. *)
Inductive Request : Type :=
| CollectionsGet (name : string)
| QueryHybrid (coll : Collection) (query : string) (limit : Z)
    (return_metadata return_properties : list string)
| GenerateNearText (coll : Collection) (query grouped_task : string).

Definition Trace : Type := list Request.

(** A backend over a state [W]: each handler answers or raises, and moves
    the state. *)
Record Backend (W : Type) : Type := {
  collections_get : string -> W -> Exc Collection * W;
  query_hybrid :
    Collection -> string -> Z -> list string -> list string ->
    W -> Exc QueryReturn * W;
  generate_near_text :
    Collection -> string -> string -> W -> Exc GenerativeReturn * W
}.
Arguments collections_get {W} _ _ _.
Arguments query_hybrid {W} _ _ _ _ _ _ _.
Arguments generate_near_text {W} _ _ _ _ _.

(** ** Programs that talk to the backend *)

Definition Prog (W A : Type) : Type := W -> Trace -> Exc A * W * Trace.

#[export] Instance Prog_monad {W} : PyMonad (Prog W) := {
  ret _ a := fun w tr => (inr a, w, tr);
  bind _ _ c k := fun w tr =>
    match c w tr with
    | (inl e, w', tr') => (inl e, w', tr')
    | (inr a, w', tr') => k a w' tr'
    end;
  raise _ e := fun w tr => (inl e, w, tr)
}.

(** A computation that needs no backend, run inside a program. *)
Definition pure_step {W A} (c : Exc A) : Prog W A :=
  fun w tr => (c, w, tr).

(** Issue a request: log it, then let the handler answer. *)
Definition request {W A} (req : Request) (handler : W -> Exc A * W)
  : Prog W A :=
  fun w tr => let '(r, w') := handler w in (r, w', (tr ++ [req])%list).

(** ** The value [retrieve_and_generate] returns *)

(** One dictionary of the [sources] list; [source_distance] is its
    [distance] key. *)
Record Source : Type := {
  title : PyVal;
  chunk_number : PyVal;
  source_distance : option float
}.

Record Result : Type := {
  answer : string;
  sources : list Source
}.

(** The constant part of [grouped_task]. *)
Definition grounding_directive : string :=
  "Please answer the following question based on the context. If the answer cannot be found in the context, say so clearly. Always cite the specific parts of the context you used."
  +:+ nl +:+ nl +:+ "Question: ".

(** What the page shows: [st.markdown], [st.write], and for a caught
    exception [e] the pair [st.error] (with the message
    [An error occurred: ] followed by [str(e)]) and [st.exception]. *)
Inductive Widget : Type :=
| StMarkdown (body : string)
| StWrite (body : string)
| StError (e : PyExn)
| StException (e : PyExn).

(** Lines 86 to 95: the answer, then one bullet per source. *)
Definition show_result (result : Result) : list Widget :=
  [ StMarkdown "### Answer";
    StWrite (answer result);
    StMarkdown "### Sources Used" ]
  ++ map (fun source =>
            StMarkdown ("- **" +:+ py_str (title source) +:+ "** (Chunk "
                        +:+ py_str (chunk_number source) +:+ ")"))
       (sources result).

(** [@st.cache_resource], which line 12 puts on [retrieve_and_generate].
    Results are kept under the arguments whose name has no leading
    underscore, here [query] and [num_chunks].  A call whose arguments are
    in the cache gets the stored result and the body does not run; the
    result of a body that returns is stored; an exception is not. *)
Definition Cache : Type := gmap (string * Z) Result.

Definition st_cache_resource {W} (body : string -> Z -> Prog W Result)
    (query : string) (num_chunks : Z) (cache : Cache) (w : W) (tr : Trace)
  : Exc Result * Cache * W * Trace :=
  match cache !! (query, num_chunks) with
  | Some stored => (inr stored, cache, w, tr)
  | None =>
      match body query num_chunks w tr with
      | (inr result, w', tr') =>
          (inr result, <[(query, num_chunks) := result]> cache, w', tr')
      | (inl e, w', tr') => (inl e, cache, w', tr')
      end
  end.

Section Pipeline.
Context {W : Type} (client : Backend W).

Definition client_collections_get (name : string) : Prog W Collection :=
  request (CollectionsGet name) (collections_get client name).

Definition collection_query_hybrid (coll : Collection) (query : string)
    (limit : Z) (return_metadata return_properties : list string)
  : Prog W QueryReturn :=
  request (QueryHybrid coll query limit return_metadata return_properties)
    (query_hybrid client coll query limit return_metadata
       return_properties).

Definition collection_generate_near_text (coll : Collection)
    (query grouped_task : string) : Prog W GenerativeReturn :=
  request (GenerateNearText coll query grouped_task)
    (generate_near_text client coll query grouped_task).

(** One entry of the context list: the f-string of lines 42 to 45, its
    fields evaluated in the order they are written. *)
Definition format_chunk (obj : Object) : Exc string :=
  title <- subscript (properties obj) "title" ;;
  chunk_number <- subscript (properties obj) "chunk_number" ;;
  chunk <- subscript (properties obj) "chunk" ;;
  ret ("From '" +:+ py_str title +:+ "' (chunk " +:+ py_str chunk_number
       +:+ "):" +:+ nl +:+ py_str chunk).

Definition build_context (results : list Object) : Exc string :=
  parts <- comprehension format_chunk results ;;
  ret (py_join (nl +:+ nl) parts).

(** One entry of the [sources] list. *)
Definition source_entry (obj : Object) : Exc Source :=
  t <- subscript (properties obj) "title" ;;
  n <- subscript (properties obj) "chunk_number" ;;
  ret {| title := t;
         chunk_number := n;
         source_distance := distance (metadata obj) |}.

Definition retrieve_and_generate (query : string) (num_chunks : Z)
  : Prog W Result :=
  wiki_chunks <- client_collections_get "WikiChunk" ;;
  reply <- collection_query_hybrid wiki_chunks query num_chunks
             ["distance"] ["title"; "chunk"; "chunk_number"] ;;
  let results := objects reply in
  context <- pure_step (build_context results) ;;
  generate_response <-
    collection_generate_near_text wiki_chunks query
      (grounding_directive +:+ query) ;;
  let answer_text := generated generate_response in
  sources_list <- pure_step (comprehension source_entry results) ;;
  ret {| answer := answer_text; sources := sources_list |}.

(** [retrieve_and_generate] with lines 42 to 45 taken out. *)
Definition retrieve_and_generate_without_context (query : string)
    (num_chunks : Z) : Prog W Result :=
  wiki_chunks <- client_collections_get "WikiChunk" ;;
  reply <- collection_query_hybrid wiki_chunks query num_chunks
             ["distance"] ["title"; "chunk"; "chunk_number"] ;;
  let results := objects reply in
  generate_response <-
    collection_generate_near_text wiki_chunks query
      (grounding_directive +:+ query) ;;
  let answer_text := generated generate_response in
  sources_list <- pure_step (comprehension source_entry results) ;;
  ret {| answer := answer_text; sources := sources_list |}.

(** Lines 80 to 99: what one run of the script does once the connection
    is up, given the state of the button, the text field and the slider.
    It yields the widgets written to the page.  The call goes through the
    cache that line 12 puts around [retrieve_and_generate]. *)
Definition on_get_answer (button : bool) (query : string)
    (num_chunks : Z) (cache : Cache) (w : W) (tr : Trace)
  : list Widget * Cache * W * Trace :=
  if button && py_truthy query then
    match st_cache_resource retrieve_and_generate query num_chunks
            cache w tr with
    | (inr result, cache', w', tr') => (show_result result, cache', w', tr')
    | (inl e, cache', w', tr') => ([StError e; StException e], cache', w', tr')
    end
  else ([], cache, w, tr).
End Pipeline.

(** ** Vocabulary of the statements *)

Definition wiki_chunk : Collection := {| collection_name := "WikiChunk" |}.

Definition asked_metadata : list string := ["distance"].

Definition asked_properties : list string := ["title"; "chunk"; "chunk_number"].

(** The requests of a full call, in the order they are sent. *)
Definition full_exchange (coll : Collection) (query : string)
    (num_chunks : Z) : list Request :=
  [ CollectionsGet "WikiChunk";
    QueryHybrid coll query num_chunks asked_metadata asked_properties;
    GenerateNearText coll query (grounding_directive +:+ query) ].

(** A request that makes the backend search the collection.  The
    generative query is one: [generate.near_text] runs a near-text search
    and generates over its hits. *)
Definition is_search (req : Request) : bool :=
  match req with
  | CollectionsGet _ => false
  | QueryHybrid _ _ _ _ _ => true
  | GenerateNearText _ _ _ => true
  end.

Definition is_generation (req : Request) : bool :=
  match req with
  | GenerateNearText _ _ _ => true
  | _ => false
  end.

(** [src] is the attribution of [obj]: its title, its chunk number and its
    distance, each copied as it is. *)
Definition attributes (obj : Object) (src : Source) : Prop :=
  properties obj !! "title" = Some (title src) /\
  properties obj !! "chunk_number" = Some (chunk_number src) /\
  source_distance src = distance (metadata obj).

(** The object carries every property of the list. *)
Definition carries (props : list string) (obj : Object) : Prop :=
  Forall (fun p => is_Some (properties obj !! p)) props.

(** Contracts of the backend that some statements assume. *)
Section Contracts.
Context {W : Type} (client : Backend W).

(** A hybrid search answers with at most [limit] objects. *)
Definition honours_limit : Prop :=
  forall coll query limit md props w reply w',
    0 <= limit ->
    query_hybrid client coll query limit md props w = (inr reply, w') ->
    Z.of_nat (length (objects reply)) <= limit.

(** Every object of the reply to a hybrid search that asks for [title],
    [chunk] and [chunk_number] carries the three of them. *)
Definition returns_asked_properties : Prop :=
  forall coll query limit md w reply w',
    query_hybrid client coll query limit md asked_properties w
    = (inr reply, w') ->
    Forall (carries asked_properties) (objects reply).

(** The replies do not depend on the backend's state. *)
Definition deterministic : Prop :=
  (forall name w1 w2,
      fst (collections_get client name w1)
      = fst (collections_get client name w2)) /\
  (forall coll query limit md props w1 w2,
      fst (query_hybrid client coll query limit md props w1)
      = fst (query_hybrid client coll query limit md props w2)) /\
  (forall coll query task w1 w2,
      fst (generate_near_text client coll query task w1)
      = fst (generate_near_text client coll query task w2)).
End Contracts.

(** ** The context block as the specification words it *)

Record ChunkRecord : Type := {
  record_title : string;
  chunk_text : string;
  record_chunk_number : Z;
  relevance_distance : float
}.

(** The label of a chunk: [From '<title>' (chunk <chunk_number>):]. *)
Definition chunk_label (c : ChunkRecord) : string :=
  "From '" +:+ record_title c +:+ "' (chunk "
  +:+ NilZero.string_of_int (Z.to_int (record_chunk_number c)) +:+ "):".

(** Label, newline, text; a blank line between one chunk and the next. *)
Fixpoint context_block (chunks : list ChunkRecord) : string :=
  match chunks with
  | [] => EmptyString
  | c :: rest =>
      chunk_label c +:+ nl +:+ chunk_text c
      +:+ match rest with
          | [] => EmptyString
          | _ :: _ => nl +:+ nl +:+ context_block rest
          end
  end.

(** How the client shows a stored chunk. *)
Definition object_of_chunk (c : ChunkRecord) : Object :=
  {| properties :=
       <["title" := PyStr (record_title c)]>
         (<["chunk" := PyStr (chunk_text c)]>
            (<["chunk_number" := PyInt (record_chunk_number c)]> ∅));
     metadata := {| distance := Some (relevance_distance c) |} |}.

(** A question that is empty once its surrounding white space is trimmed,
    which for a string means that it has nothing but white space. *)
Definition is_space (c : ascii) : bool :=
  let n := nat_of_ascii c in
  (Nat.eqb n 32 || (Nat.leb 9 n && Nat.leb n 13))%bool.

Fixpoint blank (s : string) : bool :=
  match s with
  | EmptyString => true
  | String c rest => is_space c && blank rest
  end.

(** ** Stub backends *)

(** A chunk as the [WikiChunk] collection stores it, seen as a returned
    object. *)
Definition chunk_object (t : string) (text : string) (n : Z) (d : float)
  : Object :=
  object_of_chunk
    {| record_title := t; chunk_text := text; record_chunk_number := n;
       relevance_distance := d |}.

(** A backend with canned replies.  Its state counts the requests served.
    The hybrid search answers with the first [limit] of its ranked hits. *)
Record Stub : Type := {
  hybrid_reply : Exc (list Object);
  near_text_reply : Exc GenerativeReturn
}.

Definition stub_backend (s : Stub) : Backend nat :=
  {| collections_get name served :=
       (inr {| collection_name := name |}, served);
     query_hybrid coll query limit return_metadata return_properties served :=
       (hits <- hybrid_reply s ;;
        ret {| objects := take (Z.to_nat limit) hits |},
        S served);
     generate_near_text coll query grouped_task served :=
       (near_text_reply s, S served) |}.

Definition election_2024 : Object :=
  chunk_object "2024 US Election" "...held November 5, 2024..." 3 0.12%float.

Definition election_day : Object :=
  chunk_object "Election Day" "...federal election day..." 1 0.30%float.

Definition election_answer : string :=
  "The election is held on November 5, 2024, per the '2024 US Election' article.".

Definition election_stub : Stub :=
  {| hybrid_reply := inr [election_2024; election_day];
     near_text_reply :=
       inr {| generated := election_answer;
              generative_objects := [election_2024; election_day] |} |}.

(** The search fails. *)
Definition unreachable_stub : Stub :=
  {| hybrid_reply := inl (BackendError "connection refused");
     near_text_reply := near_text_reply election_stub |}.

(** The store holds nothing that matches. *)
Definition not_found_answer : string :=
  "The context does not contain this information.".

Definition empty_stub : Stub :=
  {| hybrid_reply := inr [];
     near_text_reply :=
       inr {| generated := not_found_answer; generative_objects := [] |} |}.

(** The near-text search of the generative query ranks the chunks its own
    way and is not cut to the slider's limit. *)
Definition drifting_stub : Stub :=
  {| hybrid_reply := inr [election_2024; election_day];
     near_text_reply :=
       inr {| generated := election_answer;
              generative_objects := [election_day; election_2024] |} |}.

(** An object that came back without its [chunk] property. *)
Definition headline_only : Object :=
  {| properties :=
       <["title" := PyStr "Election Day"]> (<["chunk_number" := PyInt 1]> ∅);
     metadata := {| distance := Some 0.30%float |} |}.

Definition partial_stub : Stub :=
  {| hybrid_reply := inr [headline_only];
     near_text_reply :=
       inr {| generated := election_answer;
              generative_objects := [election_day] |} |}.

(** ** The script around the pipeline *)

(** What the user has set when the script runs: the text of the question
    field, the value of the slider and whether the button was clicked. *)
Record Inputs : Type := {
  input_query : string;
  input_num_chunks : Z;
  input_button : bool
}.

(** The elements a run of the script puts on the page, in the order the
    script creates them.  [StConnectionError e] is the [st.error] of line
    70, whose message is [Failed to connect to Weaviate: ] followed by
    [str(e)]; [InMain] holds the widgets of lines 9 and 86 to 99. *)
Inductive Element : Type :=
| StTitle (body : string)
| StSuccess (body : string)
| StConnectionError (e : PyExn)
| StTextInput (label placeholder : string)
| StSlider (label : string) (min_value max_value value : Z)
| StButton (label : string)
| StSidebarMarkdown (body : string)
| InMain (widget : Widget).

(** The text of the sidebar, lines 103 to 117. *)
Definition sidebar_text : string :=
  py_join nl
    [ EmptyString;
      "    ### About this App";
      EmptyString;
      "    This Q&A system uses Retrieval Augmented Generation (RAG) to provide accurate answers based on the Wikipedia content in our database.";
      EmptyString;
      "    The process works as follows:";
      "    1. Your question is used to search relevant chunks of text";
      "    2. The most relevant chunks are retrieved";
      "    3. An AI model generates an answer based on these chunks";
      EmptyString;
      "    ### Tips for better results:";
      "    - Be specific in your questions";
      "    - Adjust the number of chunks if you need more context";
      "    - Check the sources to understand where the information comes from";
      "    " ].

(** What the client is used for, in time: connecting, a request sent
    through it, [client.close()]. *)
Inductive Event : Type :=
| Connect
| Send (req : Request)
| Close.

(** What lasts from one run of the script to the next: the store of
    [st.cache_resource], [st.session_state], the backend, and the log of
    what was done with clients so far. *)
Record App (W : Type) : Type := {
  resource_cache : Cache;
  session_state : gmap string (list PyVal);
  backend_state : W;
  client_log : list Event
}.
Arguments resource_cache {W} _.
Arguments session_state {W} _.
Arguments backend_state {W} _.
Arguments client_log {W} _.

(** Lines 120 and 121: [history] is set to the empty list when the
    session has none. *)
Definition init_history (state : gmap string (list PyVal))
  : gmap string (list PyVal) :=
  match state !! "history" with
  | Some _ => state
  | None => <["history" := []]> state
  end.

(** What every run shows first, lines 8 and 9. *)
Definition page_top : list Element :=
  [ StTitle "Presidential Election 2024 Q&A";
    InMain (StWrite "Ask questions about the Wikipedia content in our database!") ].

(** The input widgets of lines 74, 77 and 80. *)
Definition page_inputs : list Element :=
  [ StTextInput "Enter your question:" "What would you like to know?";
    StSlider "Number of chunks to retrieve:" 1 5 3;
    StButton "Get Answer" ].

(** One run of the script, top to bottom.  [connect_to_my_db] is the
    function of the [utils] module: it hands a client or raises.  When it
    raises, [st.stop()] ends the run at line 71. *)
Definition script {W} (connect_to_my_db : W -> Exc (Backend W) * W)
    (inputs : Inputs) (app : App W) : list Element * App W :=
  match connect_to_my_db (backend_state app) with
  | (inl e, w1) =>
      (page_top ++ [StConnectionError e],
       {| resource_cache := resource_cache app;
          session_state := session_state app;
          backend_state := w1;
          client_log := client_log app |})
  | (inr client, w1) =>
      let '(shown, cache', w2, issued) :=
        on_get_answer client (input_button inputs) (input_query inputs)
          (input_num_chunks inputs) (resource_cache app) w1 [] in
      (page_top
       ++ [StSuccess "Successfully connected to Weaviate!"]
       ++ page_inputs
       ++ map InMain shown
       ++ [StSidebarMarkdown sidebar_text],
       {| resource_cache := cache';
          session_state := init_history (session_state app);
          backend_state := w2;
          client_log :=
            client_log app ++ [Connect] ++ map Send issued ++ [Close] |})
  end.

(** The script run once per interaction; the pages come out in order. *)
Fixpoint session {W} (connect_to_my_db : W -> Exc (Backend W) * W)
    (runs : list Inputs) (app : App W) : list (list Element) * App W :=
  match runs with
  | [] => ([], app)
  | inputs :: later =>
      let '(page, app1) := script connect_to_my_db inputs app in
      let '(pages, app2) := session connect_to_my_db later app1 in
      (page :: pages, app2)
  end.


(** Every stored result has at most as many sources as the limit it is
    stored under. *)
Definition cache_within_limits (cache : Cache) : Prop :=
  forall query num_chunks stored,
    cache !! (query, num_chunks) = Some stored ->
    Z.of_nat (length (sources stored)) <= num_chunks.

(** The bullet of line 94 for a title and a chunk number. *)
Definition source_bullet (t n : PyVal) : Widget :=
  StMarkdown ("- **" +:+ py_str t +:+ "** (Chunk " +:+ py_str n +:+ ")").

(** A stub connection: it hands the stub client, or fails. *)
Definition stub_connect (s : Exc Stub) (served : nat)
  : Exc (Backend nat) * nat :=
  (stub <- s ;; ret (stub_backend stub), served).

Definition fresh_app : App nat :=
  {| resource_cache := ∅; session_state := ∅; backend_state := 0%nat;
     client_log := [] |}.

(** What the election scenario returns. *)
Definition election_result : Result :=
  {| answer := election_answer;
     sources :=
       [ {| title := PyStr "2024 US Election"; chunk_number := PyInt 3;
            source_distance := Some 0.12%float |};
         {| title := PyStr "Election Day"; chunk_number := PyInt 1;
            source_distance := Some 0.30%float |} ] |}.

(** The generative query fails. *)
Definition mute_stub : Stub :=
  {| hybrid_reply := hybrid_reply election_stub;
     near_text_reply := inl (BackendError "generative module not enabled") |}.

(** ** Where [py_str] is [str] *)

(** CPython refuses to turn an integer of more than 4300 digits into a
    string: there [str], and with it an f-string field, raises
    [ValueError].  On every other value of [PyVal], [py_str] is what [str]
    returns; an integer property of a Weaviate object has 64 bits and is
    far below the limit. *)
Definition int_max_str_digits : Z := 4300.

Definition str_returns (v : PyVal) : bool :=
  match v with
  | PyInt z => Z.abs z <? 10 ^ int_max_str_digits
  | _ => true
  end.

(** What the object holds under [title], [chunk_number] and [chunk], the
    keys the f-strings read, are values [str] returns on. *)
Definition renders (obj : Object) : bool :=
  forallb
    (fun k =>
       match properties obj !! k with
       | Some v => str_returns v
       | None => true
       end)
    ["title"; "chunk_number"; "chunk"].

Example election_scenario :
  retrieve_and_generate (stub_backend election_stub)
    "When is the election?" 2 0%nat []
  = (inr {| answer := election_answer;
            sources :=
              [ {| title := PyStr "2024 US Election"; chunk_number := PyInt 3;
                   source_distance := Some 0.12%float |};
                {| title := PyStr "Election Day"; chunk_number := PyInt 1;
                   source_distance := Some 0.30%float |} ] |},
     2%nat,
     [ CollectionsGet "WikiChunk";
       QueryHybrid wiki_chunk "When is the election?" 2 asked_metadata
         asked_properties;
       GenerateNearText wiki_chunk "When is the election?"
         (grounding_directive +:+ "When is the election?") ]).
Proof. vm_compute. reflexivity. Qed.

Example election_context :
  build_context [election_2024; election_day]
  = inr ("From '2024 US Election' (chunk 3):" +:+ nl
         +:+ "...held November 5, 2024..." +:+ nl +:+ nl
         +:+ "From 'Election Day' (chunk 1):" +:+ nl
         +:+ "...federal election day...").
Proof. vm_compute. reflexivity. Qed.

(** ** How a call unfolds *)

Section Unfolding.
Context {W : Type} (client : Backend W).

(** Every way a call can go, read off the three handlers and the two
    comprehensions. *)
Lemma retrieve_and_generate_cases query num_chunks w tr :
  retrieve_and_generate client query num_chunks w tr =
  match collections_get client "WikiChunk" w with
  | (inl e, w1) => (inl e, w1, (tr ++ [CollectionsGet "WikiChunk"])%list)
  | (inr coll, w1) =>
      match query_hybrid client coll query num_chunks asked_metadata
              asked_properties w1 with
      | (inl e, w2) =>
          (inl e, w2, (tr ++ take 2 (full_exchange coll query num_chunks))%list)
      | (inr reply, w2) =>
          match build_context (objects reply) with
          | inl e =>
              (inl e, w2,
               (tr ++ take 2 (full_exchange coll query num_chunks))%list)
          | inr _ =>
              match generate_near_text client coll query
                      (grounding_directive +:+ query) w2 with
              | (inl e, w3) =>
                  (inl e, w3,
                   (tr ++ full_exchange coll query num_chunks)%list)
              | (inr g, w3) =>
                  match comprehension source_entry (objects reply) with
                  | inl e =>
                      (inl e, w3,
                       (tr ++ full_exchange coll query num_chunks)%list)
                  | inr srcs =>
                      (inr {| answer := generated g; sources := srcs |},
                       w3,
                       (tr ++ full_exchange coll query num_chunks)%list)
                  end
              end
          end
      end
  end.
Proof.
  unfold retrieve_and_generate, client_collections_get,
    collection_query_hybrid, collection_generate_near_text, request,
    pure_step, full_exchange, asked_metadata, asked_properties.
  cbn -[build_context comprehension String.append].
  destruct (collections_get client "WikiChunk" w) as [[e | coll] w1];
    [reflexivity |].
  destruct (query_hybrid client coll query num_chunks _ _ w1)
    as [[e | reply] w2]; rewrite <- ?app_assoc; [reflexivity |].
  destruct (build_context (objects reply)) as [e | ctx]; [reflexivity |].
  destruct (generate_near_text client coll query _ w2) as [[e | g] w3];
    rewrite <- ?app_assoc; [reflexivity |].
  destruct (comprehension source_entry (objects reply)) as [e | srcs];
    reflexivity.
Qed.

Lemma retrieve_and_generate_without_context_cases query num_chunks w tr :
  retrieve_and_generate_without_context client query num_chunks w tr =
  match collections_get client "WikiChunk" w with
  | (inl e, w1) => (inl e, w1, (tr ++ [CollectionsGet "WikiChunk"])%list)
  | (inr coll, w1) =>
      match query_hybrid client coll query num_chunks asked_metadata
              asked_properties w1 with
      | (inl e, w2) =>
          (inl e, w2, (tr ++ take 2 (full_exchange coll query num_chunks))%list)
      | (inr reply, w2) =>
          match generate_near_text client coll query
                  (grounding_directive +:+ query) w2 with
          | (inl e, w3) =>
              (inl e, w3, (tr ++ full_exchange coll query num_chunks)%list)
          | (inr g, w3) =>
              match comprehension source_entry (objects reply) with
              | inl e =>
                  (inl e, w3,
                   (tr ++ full_exchange coll query num_chunks)%list)
              | inr srcs =>
                  (inr {| answer := generated g; sources := srcs |},
                   w3,
                   (tr ++ full_exchange coll query num_chunks)%list)
              end
          end
      end
  end.
Proof.
  unfold retrieve_and_generate_without_context, client_collections_get,
    collection_query_hybrid, collection_generate_near_text, request,
    pure_step, full_exchange, asked_metadata, asked_properties.
  cbn -[comprehension String.append].
  destruct (collections_get client "WikiChunk" w) as [[e | coll] w1];
    [reflexivity |].
  destruct (query_hybrid client coll query num_chunks _ _ w1)
    as [[e | reply] w2]; rewrite <- ?app_assoc; [reflexivity |].
  destruct (generate_near_text client coll query _ w2) as [[e | g] w3];
    rewrite <- ?app_assoc; [reflexivity |].
  destruct (comprehension source_entry (objects reply)) as [e | srcs];
    reflexivity.
Qed.

(** A call that returns went through all three requests, and both
    comprehensions returned. *)
Lemma retrieve_and_generate_returns query num_chunks w tr r w' tr' :
  retrieve_and_generate client query num_chunks w tr = (inr r, w', tr') <->
  exists coll w1 reply w2 ctx g,
    collections_get client "WikiChunk" w = (inr coll, w1) /\
    query_hybrid client coll query num_chunks asked_metadata
      asked_properties w1 = (inr reply, w2) /\
    build_context (objects reply) = inr ctx /\
    generate_near_text client coll query (grounding_directive +:+ query) w2
    = (inr g, w') /\
    comprehension source_entry (objects reply) = inr (sources r) /\
    answer r = generated g /\
    tr' = (tr ++ full_exchange coll query num_chunks)%list.
Proof.
  rewrite retrieve_and_generate_cases. split.
  - destruct (collections_get client "WikiChunk" w)
      as [[e | coll] w1] eqn:Hget; [discriminate |].
    destruct (query_hybrid client coll query num_chunks _ _ w1)
      as [[e | reply] w2] eqn:Hhyb; [discriminate |].
    destruct (build_context (objects reply)) as [e | ctx] eqn:Hctx;
      [discriminate |].
    destruct (generate_near_text client coll query _ w2)
      as [[e | g] w3] eqn:Hgen; [discriminate |].
    destruct (comprehension source_entry (objects reply))
      as [e | srcs] eqn:Hsrc; [discriminate |].
    intros [= <- <- <-]. exists coll, w1, reply, w2, ctx, g.
    repeat split; auto.
  - intros (coll & w1 & reply & w2 & ctx & g
            & -> & -> & -> & -> & -> & Hans & ->).
    destruct r as [a srcs]. cbn in *. now subst a.
Qed.
End Unfolding.

(** ** The two comprehensions *)

Lemma subscript_inr d k v : subscript d k = inr v <-> d !! k = Some v.
Proof.
  unfold subscript. destruct (d !! k) as [v' |]; cbn; split;
    intros H; inversion H; reflexivity.
Qed.

Lemma subscript_inl d k e :
  subscript d k = inl e <-> d !! k = None /\ e = KeyError k.
Proof.
  unfold subscript. destruct (d !! k) as [v' |]; cbn; split.
  - discriminate.
  - intros [[=] _].
  - intros [= <-]. auto.
  - intros [_ ->]. reflexivity.
Qed.

Lemma source_entry_inr obj src :
  source_entry obj = inr src <-> attributes obj src.
Proof.
  unfold source_entry, attributes, subscript.
  destruct (properties obj !! "title") as [t |]; cbn.
  - destruct (properties obj !! "chunk_number") as [n |]; cbn.
    + split.
      * intros [= <-]. cbn. auto.
      * destruct src as [t' n' d']. cbn. intros ([= ->] & [= ->] & ->).
        reflexivity.
    + split; [discriminate | intros (_ & [=] & _)].
  - split; [discriminate | intros ([=] & _)].
Qed.

Lemma comprehension_cons {A B} (f : A -> Exc B) x l :
  comprehension f (x :: l) =
  match f x with
  | inl e => inl e
  | inr y =>
      match comprehension f l with
      | inl e => inl e
      | inr ys => inr (y :: ys)
      end
  end.
Proof. reflexivity. Qed.

(** A comprehension returns exactly when each of its elements does, and
    then it returns the elements' values in the order of the list. *)
Lemma comprehension_inr {A B} (f : A -> Exc B) l ys :
  comprehension f l = inr ys <-> Forall2 (fun x y => f x = inr y) l ys.
Proof.
  revert ys. induction l as [| x l IH]; intros ys.
  - split.
    + intros [= <-]. constructor.
    + intros H. inversion H. reflexivity.
  - rewrite comprehension_cons. split.
    + destruct (f x) as [e | y] eqn:Hx; [discriminate |].
      destruct (comprehension f l) as [e | rest]; [discriminate |].
      intros [= <-]. constructor; [exact Hx | now apply IH].
    + intros H. inversion H as [| ? y ? rest Hx Hrest]; subst.
      apply IH in Hrest. now rewrite Hx, Hrest.
Qed.

Lemma comprehension_source_entry objs srcs :
  comprehension source_entry objs = inr srcs <-> Forall2 attributes objs srcs.
Proof.
  rewrite comprehension_inr. split; intros H.
  - eapply Forall2_impl; [exact H |]. intros obj src. apply source_entry_inr.
  - eapply Forall2_impl; [exact H |]. intros obj src. apply source_entry_inr.
Qed.

Lemma carries_lookup props obj p :
  carries props obj -> p ∈ props -> is_Some (properties obj !! p).
Proof.
  unfold carries. rewrite Forall_forall. auto.
Qed.

Lemma source_entry_carries obj :
  carries asked_properties obj -> exists src, source_entry obj = inr src.
Proof.
  intros Hc.
  destruct (carries_lookup _ _ "title" Hc) as [t Ht];
    [unfold asked_properties; set_solver |].
  destruct (carries_lookup _ _ "chunk_number" Hc) as [n Hn];
    [unfold asked_properties; set_solver |].
  exists {| title := t; chunk_number := n;
            source_distance := distance (metadata obj) |}.
  apply source_entry_inr. unfold attributes. cbn. auto.
Qed.

Lemma format_chunk_carries obj :
  carries asked_properties obj -> exists s, format_chunk obj = inr s.
Proof.
  intros Hc.
  destruct (carries_lookup _ _ "title" Hc) as [t Ht];
    [unfold asked_properties; set_solver |].
  destruct (carries_lookup _ _ "chunk_number" Hc) as [n Hn];
    [unfold asked_properties; set_solver |].
  destruct (carries_lookup _ _ "chunk" Hc) as [c Hchunk];
    [unfold asked_properties; set_solver |].
  unfold format_chunk, subscript. rewrite Ht, Hn, Hchunk. cbn. eauto.
Qed.

Lemma comprehension_total {A B} (f : A -> Exc B) (l : list A) :
  Forall (fun x => exists y, f x = inr y) l ->
  exists ys, comprehension f l = inr ys.
Proof.
  induction 1 as [| x l [y Hy] _ [ys Hys]].
  - now exists [].
  - rewrite comprehension_cons, Hy, Hys. eauto.
Qed.

Lemma build_context_carries objs :
  Forall (carries asked_properties) objs ->
  exists ctx, build_context objs = inr ctx.
Proof.
  intros Hall. unfold build_context.
  destruct (comprehension_total format_chunk objs) as [parts Hparts].
  - eapply Forall_impl; [exact Hall |]. apply format_chunk_carries.
  - rewrite Hparts. cbn. eauto.
Qed.

Lemma sources_carries objs :
  Forall (carries asked_properties) objs ->
  exists srcs, comprehension source_entry objs = inr srcs.
Proof.
  intros Hall. apply comprehension_total.
  eapply Forall_impl; [exact Hall |]. apply source_entry_carries.
Qed.

(** ** The stub backends meet the contracts *)

Lemma stub_honours_limit s : honours_limit (stub_backend s).
Proof.
  intros coll query limit md props served reply served' Hlimit Hrun.
  cbn in Hrun. destruct (hybrid_reply s) as [e | hits]; cbn in Hrun;
    [discriminate |].
  injection Hrun as <- _. cbn. rewrite length_take. lia.
Qed.

Lemma stub_deterministic s : deterministic (stub_backend s).
Proof. repeat split. Qed.

Lemma object_of_chunk_carries c : carries asked_properties (object_of_chunk c).
Proof.
  unfold carries, asked_properties. repeat constructor; cbn; eauto.
Qed.

Lemma stub_returns_asked_properties s hits :
  hybrid_reply s = inr hits ->
  Forall (carries asked_properties) hits ->
  returns_asked_properties (stub_backend s).
Proof.
  intros Hs Hall coll query limit md served reply served' Hrun.
  cbn in Hrun. rewrite Hs in Hrun. cbn in Hrun.
  injection Hrun as <- _. cbn. now apply Forall_take.
Qed.

(** ** Source attribution *)

(** C1. Whenever [retrieve_and_generate] returns, its [sources] has one
    entry per object of the hybrid search's reply, in the reply's order:
    the two lists have the same length and the entry at each position
    holds the title, chunk number and distance of the object at that
    position.  Nothing is sorted, dropped or merged. *)
Theorem sources_follow_retrieved_chunks {W} (client : Backend W)
    query num_chunks w tr r w' tr' :
  retrieve_and_generate client query num_chunks w tr = (inr r, w', tr') ->
  exists coll w1 reply w2,
    collections_get client "WikiChunk" w = (inr coll, w1) /\
    query_hybrid client coll query num_chunks asked_metadata
      asked_properties w1 = (inr reply, w2) /\
    length (sources r) = length (objects reply) /\
    Forall2 attributes (objects reply) (sources r).
Proof.
  intros Hrun. apply retrieve_and_generate_returns in Hrun
    as (coll & w1 & reply & w2 & ctx & g & Hget & Hhyb & _ & _ & Hsrc & _).
  apply comprehension_source_entry in Hsrc.
  exists coll, w1, reply, w2. repeat split; try assumption.
  symmetry. eapply Forall2_length. exact Hsrc.
Qed.

Lemma sources_follow_retrieved_chunks_witness :
  exists coll w1 reply w2,
    collections_get (stub_backend election_stub) "WikiChunk" 0%nat
    = (inr coll, w1) /\
    query_hybrid (stub_backend election_stub) coll "When is the election?" 2
      asked_metadata asked_properties w1 = (inr reply, w2) /\
    length
      [ {| title := PyStr "2024 US Election"; chunk_number := PyInt 3;
           source_distance := Some 0.12%float |};
        {| title := PyStr "Election Day"; chunk_number := PyInt 1;
           source_distance := Some 0.30%float |} ]
    = length (objects reply) /\
    Forall2 attributes (objects reply)
      [ {| title := PyStr "2024 US Election"; chunk_number := PyInt 3;
           source_distance := Some 0.12%float |};
        {| title := PyStr "Election Day"; chunk_number := PyInt 1;
           source_distance := Some 0.30%float |} ].
Proof.
  apply (sources_follow_retrieved_chunks (stub_backend election_stub)
           "When is the election?" 2 0%nat []
           {| answer := election_answer;
              sources :=
                [ {| title := PyStr "2024 US Election";
                     chunk_number := PyInt 3;
                     source_distance := Some 0.12%float |};
                  {| title := PyStr "Election Day"; chunk_number := PyInt 1;
                     source_distance := Some 0.30%float |} ] |}
           2%nat (full_exchange wiki_chunk "When is the election?" 2)).
  vm_compute. reflexivity.
Defined.

(** The other direction: when the three requests succeed and the objects
    carry what was asked for, the call does return, with one source per
    object. *)
Lemma retrieve_and_generate_succeeds {W} (client : Backend W)
    query num_chunks w tr coll w1 reply w2 g w3 :
  collections_get client "WikiChunk" w = (inr coll, w1) ->
  query_hybrid client coll query num_chunks asked_metadata asked_properties w1
  = (inr reply, w2) ->
  Forall (carries asked_properties) (objects reply) ->
  generate_near_text client coll query (grounding_directive +:+ query) w2
  = (inr g, w3) ->
  exists srcs,
    retrieve_and_generate client query num_chunks w tr
    = (inr {| answer := generated g; sources := srcs |}, w3,
       (tr ++ full_exchange coll query num_chunks)%list) /\
    Forall2 attributes (objects reply) srcs.
Proof.
  intros Hget Hhyb Hall Hgen.
  destruct (build_context_carries _ Hall) as [ctx Hctx].
  destruct (sources_carries _ Hall) as [srcs Hsrc].
  exists srcs. split; [| now apply comprehension_source_entry].
  now rewrite retrieve_and_generate_cases, Hget, Hhyb, Hctx, Hgen, Hsrc.
Qed.

(** A chunk returned twice is attributed twice. *)
Example repeated_chunk_is_kept :
  (retrieve_and_generate
     (stub_backend
        {| hybrid_reply := inr [election_day; election_day];
           near_text_reply := near_text_reply election_stub |})
     "When is the election?" 2 0%nat []).1.1
  = inr {| answer := election_answer;
           sources :=
             [ {| title := PyStr "Election Day"; chunk_number := PyInt 1;
                  source_distance := Some 0.30%float |};
               {| title := PyStr "Election Day"; chunk_number := PyInt 1;
                  source_distance := Some 0.30%float |} ] |}.
Proof. vm_compute. reflexivity. Qed.

(** C3. For a chunk limit between 1 and 5 passed as [num_chunks], and a
    backend whose hybrid search answers with at most [limit] objects, the
    hybrid search is sent with that very limit and the [sources] of the
    result has at most that many entries. *)
Theorem sources_within_chunk_limit {W} (client : Backend W)
    query num_chunks w tr r w' tr' :
  1 <= num_chunks <= 5 ->
  honours_limit client ->
  retrieve_and_generate client query num_chunks w tr = (inr r, w', tr') ->
  (exists coll,
      QueryHybrid coll query num_chunks asked_metadata asked_properties
      ∈ drop (length tr) tr') /\
  Z.of_nat (length (sources r)) <= num_chunks.
Proof.
  intros Hrange Hlimit Hrun. apply retrieve_and_generate_returns in Hrun
    as (coll & w1 & reply & w2 & ctx & g & _ & Hhyb & _ & _ & Hsrc & _ & ->).
  split.
  - exists coll. rewrite drop_app_length.
    apply list_elem_of_further, list_elem_of_here.
  - apply comprehension_source_entry, Forall2_length in Hsrc.
    rewrite <- Hsrc. eapply Hlimit; [lia | exact Hhyb].
Qed.

Lemma sources_within_chunk_limit_witness :
  1 <= 2 <= 5 /\
  honours_limit (stub_backend election_stub) /\
  (exists coll,
      QueryHybrid coll "When is the election?" 2 asked_metadata
        asked_properties
      ∈ drop (length (@nil Request))
          (full_exchange wiki_chunk "When is the election?" 2)) /\
  Z.of_nat
    (length
       [ {| title := PyStr "2024 US Election"; chunk_number := PyInt 3;
            source_distance := Some 0.12%float |};
         {| title := PyStr "Election Day"; chunk_number := PyInt 1;
            source_distance := Some 0.30%float |} ]) <= 2.
Proof.
  split; [lia |]. split; [apply stub_honours_limit |].
  apply (sources_within_chunk_limit (stub_backend election_stub)
           "When is the election?" 2 0%nat []
           {| answer := election_answer;
              sources :=
                [ {| title := PyStr "2024 US Election";
                     chunk_number := PyInt 3;
                     source_distance := Some 0.12%float |};
                  {| title := PyStr "Election Day"; chunk_number := PyInt 1;
                     source_distance := Some 0.30%float |} ] |}
           2%nat (full_exchange wiki_chunk "When is the election?" 2)).
  - lia.
  - apply stub_honours_limit.
  - vm_compute. reflexivity.
Defined.

(** ** Failures and empty results *)

(** C4. When the hybrid search raises, [retrieve_and_generate] ends with
    that same exception; it has sent the search once and nothing after
    it, so no generation request was made, and the backend is left in the
    state the failed search put it in. *)
Theorem retrieval_failure_propagates {W} (client : Backend W)
    query num_chunks w tr coll w1 e w2 :
  collections_get client "WikiChunk" w = (inr coll, w1) ->
  query_hybrid client coll query num_chunks asked_metadata asked_properties w1
  = (inl e, w2) ->
  exists issued,
    retrieve_and_generate client query num_chunks w tr
    = (inl e, w2, (tr ++ issued)%list) /\
    issued = [ CollectionsGet "WikiChunk";
               QueryHybrid coll query num_chunks asked_metadata
                 asked_properties ] /\
    filter is_generation issued = [].
Proof.
  intros Hget Hhyb. eexists. split; [| split; reflexivity].
  rewrite retrieve_and_generate_cases, Hget, Hhyb. reflexivity.
Qed.

Lemma retrieval_failure_propagates_witness :
  collections_get (stub_backend unreachable_stub) "WikiChunk" 0%nat
  = (inr wiki_chunk, 0%nat) /\
  query_hybrid (stub_backend unreachable_stub) wiki_chunk
    "When is the election?" 3 asked_metadata asked_properties 0%nat
  = (inl (BackendError "connection refused"), 1%nat) /\
  exists issued,
    retrieve_and_generate (stub_backend unreachable_stub)
      "When is the election?" 3 0%nat []
    = (inl (BackendError "connection refused"), 1%nat, ([] ++ issued)%list) /\
    issued = [ CollectionsGet "WikiChunk";
               QueryHybrid wiki_chunk "When is the election?" 3
                 asked_metadata asked_properties ] /\
    filter is_generation issued = [].
Proof.
  split; [reflexivity |]. split; [reflexivity |].
  apply (retrieval_failure_propagates (stub_backend unreachable_stub)
           "When is the election?" 3 0%nat [] wiki_chunk 0%nat
           (BackendError "connection refused") 1%nat);
    reflexivity.
Defined.

(** C5. When the hybrid search succeeds with no object at all and the
    generative query succeeds, [retrieve_and_generate] returns: [sources]
    is empty and [answer] is the text the generative query produced. *)
Theorem empty_retrieval_still_answers {W} (client : Backend W)
    query num_chunks w tr coll w1 reply w2 g w3 :
  collections_get client "WikiChunk" w = (inr coll, w1) ->
  query_hybrid client coll query num_chunks asked_metadata asked_properties w1
  = (inr reply, w2) ->
  objects reply = [] ->
  generate_near_text client coll query (grounding_directive +:+ query) w2
  = (inr g, w3) ->
  retrieve_and_generate client query num_chunks w tr
  = (inr {| answer := generated g; sources := [] |}, w3,
     (tr ++ full_exchange coll query num_chunks)%list).
Proof.
  intros Hget Hhyb Hnone Hgen.
  rewrite retrieve_and_generate_cases, Hget, Hhyb, Hnone. cbn.
  rewrite Hgen. reflexivity.
Qed.

Lemma empty_retrieval_still_answers_witness :
  retrieve_and_generate (stub_backend empty_stub) "Who won in 1824?" 3
    0%nat []
  = (inr {| answer := not_found_answer; sources := [] |}, 2%nat,
     ([] ++ full_exchange wiki_chunk "Who won in 1824?" 3)%list).
Proof.
  apply (empty_retrieval_still_answers (stub_backend empty_stub)
           "Who won in 1824?" 3 0%nat [] wiki_chunk 0%nat
           {| objects := [] |} 1%nat
           {| generated := not_found_answer; generative_objects := [] |}
           2%nat);
    reflexivity.
Defined.

(** ** The context block *)

Lemma append_assoc (s1 s2 s3 : string) :
  (s1 +:+ s2) +:+ s3 = s1 +:+ s2 +:+ s3.
Proof.
  induction s1 as [| c s1 IH]; [reflexivity |].
  change (String c ((s1 +:+ s2) +:+ s3) = String c (s1 +:+ s2 +:+ s3)).
  now f_equal.
Qed.

Lemma append_empty_r (s : string) : s +:+ EmptyString = s.
Proof.
  induction s as [| c s IH]; [reflexivity |].
  change (String c (s +:+ EmptyString) = String c s). now f_equal.
Qed.

Lemma py_join_cons sep part parts :
  py_join sep (part :: parts) =
  match parts with
  | [] => part
  | _ :: _ => part +:+ sep +:+ py_join sep parts
  end.
Proof. destruct parts; reflexivity. Qed.

(** The f-string on an object carrying the three properties. *)
Lemma format_chunk_inr obj t n c :
  properties obj !! "title" = Some t ->
  properties obj !! "chunk_number" = Some n ->
  properties obj !! "chunk" = Some c ->
  format_chunk obj
  = inr ("From '" +:+ py_str t +:+ "' (chunk " +:+ py_str n +:+ "):"
         +:+ nl +:+ py_str c).
Proof.
  intros Ht Hn Hc. unfold format_chunk, subscript. now rewrite Ht, Hn, Hc.
Qed.

Lemma format_chunk_record c :
  format_chunk (object_of_chunk c)
  = inr ((chunk_label c +:+ nl) +:+ chunk_text c).
Proof.
  rewrite (format_chunk_inr _ (PyStr (record_title c))
             (PyInt (record_chunk_number c)) (PyStr (chunk_text c)));
    [| reflexivity ..].
  unfold chunk_label. cbn [py_str]. now rewrite !append_assoc.
Qed.

Lemma comprehension_format_chunk chunks :
  comprehension format_chunk (map object_of_chunk chunks)
  = inr (map (fun c => (chunk_label c +:+ nl) +:+ chunk_text c) chunks).
Proof.
  induction chunks as [| c chunks IH]; [reflexivity |].
  cbn [map]. now rewrite comprehension_cons, format_chunk_record, IH.
Qed.

(** C7. The context built from a sequence of retrieved chunks is the
    specification's context block: for each chunk, in retrieval order, the
    label [From '<title>' (chunk <chunk_number>):], a newline and the
    chunk's text, with a blank line between one chunk and the next. *)
Theorem build_context_is_context_block (chunks : list ChunkRecord) :
  build_context (map object_of_chunk chunks) = inr (context_block chunks).
Proof.
  unfold build_context. rewrite comprehension_format_chunk.
  cbn [bind Exc_monad ret]. f_equal.
  induction chunks as [| c chunks IH]; [reflexivity |].
  cbn [map]. rewrite py_join_cons. cbn [context_block].
  destruct chunks as [| c' chunks].
  - cbn [map]. now rewrite append_empty_r, append_assoc.
  - cbn [map] in *. rewrite IH. now rewrite !append_assoc.
Qed.

Example context_block_election :
  context_block
    [ {| record_title := "2024 US Election";
         chunk_text := "...held November 5, 2024...";
         record_chunk_number := 3; relevance_distance := 0.12%float |};
      {| record_title := "Election Day";
         chunk_text := "...federal election day...";
         record_chunk_number := 1; relevance_distance := 0.30%float |} ]
  = "From '2024 US Election' (chunk 3):" +:+ nl
    +:+ "...held November 5, 2024..." +:+ nl +:+ nl
    +:+ "From 'Election Day' (chunk 1):" +:+ nl
    +:+ "...federal election day...".
Proof. reflexivity. Qed.

(** ** The generation request and the answer *)

(** C8. Whatever way a call goes, every generation request it sends
    carries the question as its query and, as its instruction, the fixed
    grounding directive followed by the question text as it was given;
    and when the call returns, [answer] is the text the generative query
    replied with, unchanged. *)
Theorem instruction_and_answer_verbatim {W} (client : Backend W)
    query num_chunks w tr out w' tr' :
  retrieve_and_generate client query num_chunks w tr = (out, w', tr') ->
  (forall coll q task,
      GenerateNearText coll q task ∈ drop (length tr) tr' ->
      q = query /\ task = grounding_directive +:+ query) /\
  (forall r,
      out = inr r ->
      exists coll w2 g,
        filter is_generation (drop (length tr) tr')
        = [GenerateNearText coll query (grounding_directive +:+ query)] /\
        generate_near_text client coll query
          (grounding_directive +:+ query) w2 = (inr g, w') /\
        answer r = generated g).
Proof.
  intros Hrun. split.
  - intros coll' q task. rewrite retrieve_and_generate_cases in Hrun.
    destruct (collections_get client "WikiChunk" w) as [[e | coll] w1].
    { injection Hrun as _ _ <-. rewrite drop_app_length.
      intros Hin. apply list_elem_of_In in Hin. cbn in Hin.
      intuition discriminate. }
    assert (Hfull :
      GenerateNearText coll' q task
      ∈ drop (length tr) (tr ++ full_exchange coll query num_chunks) ->
      q = query /\ task = grounding_directive +:+ query).
    { rewrite drop_app_length. intros Hin.
      apply list_elem_of_In in Hin. cbn in Hin.
      destruct Hin as [H | [H | [H | []]]]; try discriminate.
      now injection H as _ <- <-. }
    assert (Hpart :
      GenerateNearText coll' q task
      ∈ drop (length tr)
          (tr ++ take 2 (full_exchange coll query num_chunks)) ->
      q = query /\ task = grounding_directive +:+ query).
    { rewrite drop_app_length. intros Hin.
      apply list_elem_of_In in Hin. cbn in Hin.
      intuition discriminate. }
    destruct (query_hybrid client coll query num_chunks _ _ w1)
      as [[e | reply] w2]; [injection Hrun as _ _ <-; exact Hpart |].
    destruct (build_context (objects reply)) as [e | ctx];
      [injection Hrun as _ _ <-; exact Hpart |].
    destruct (generate_near_text client coll query _ w2) as [[e | g] w3];
      [injection Hrun as _ _ <-; exact Hfull |].
    destruct (comprehension source_entry (objects reply)) as [e | srcs];
      injection Hrun as _ _ <-; exact Hfull.
  - intros r ->. apply retrieve_and_generate_returns in Hrun
      as (coll & w1 & reply & w2 & ctx & g & _ & _ & _ & Hgen & _ & Hans & ->).
    exists coll, w2, g. rewrite drop_app_length. auto.
Qed.

Lemma instruction_and_answer_verbatim_witness :
  (forall coll q task,
      GenerateNearText coll q task
      ∈ drop (length (@nil Request))
          (full_exchange wiki_chunk "When is the election?" 2) ->
      q = "When is the election?" /\
      task = grounding_directive +:+ "When is the election?") /\
  (forall r,
      inr {| answer := election_answer;
             sources :=
               [ {| title := PyStr "2024 US Election";
                    chunk_number := PyInt 3;
                    source_distance := Some 0.12%float |};
                 {| title := PyStr "Election Day"; chunk_number := PyInt 1;
                    source_distance := Some 0.30%float |} ] |}
      = @inr PyExn Result r ->
      exists coll w2 g,
        filter is_generation
          (drop (length (@nil Request))
             (full_exchange wiki_chunk "When is the election?" 2))
        = [GenerateNearText coll "When is the election?"
             (grounding_directive +:+ "When is the election?")] /\
        generate_near_text (stub_backend election_stub) coll
          "When is the election?"
          (grounding_directive +:+ "When is the election?") w2
        = (inr g, 2%nat) /\
        answer r = generated g).
Proof.
  apply (instruction_and_answer_verbatim (stub_backend election_stub)
           "When is the election?" 2 0%nat []).
  vm_compute. reflexivity.
Defined.

(** ** Determinism *)

(** C9. Against a backend whose replies do not depend on its state, two
    calls with the same question and the same chunk limit end the same
    way, whatever the states they start from (the second call may start
    from the state the first one left): the same result, answer and
    sources alike, or the same exception. *)
Theorem identical_calls_identical_results {W} (client : Backend W)
    query num_chunks w1 tr1 w2 tr2 :
  deterministic client ->
  (retrieve_and_generate client query num_chunks w1 tr1).1.1
  = (retrieve_and_generate client query num_chunks w2 tr2).1.1.
Proof.
  intros (Hget & Hhyb & Hgen). rewrite !retrieve_and_generate_cases.
  specialize (Hget "WikiChunk" w1 w2).
  destruct (collections_get client "WikiChunk" w1) as [[e | coll] w1'],
    (collections_get client "WikiChunk" w2) as [[e' | coll'] w2'];
    cbn [fst] in *; try discriminate; [congruence |].
  injection Hget as <-.
  specialize (Hhyb coll query num_chunks asked_metadata asked_properties
                w1' w2').
  destruct (query_hybrid client coll query num_chunks _ _ w1')
    as [[e | reply] w1''],
    (query_hybrid client coll query num_chunks _ _ w2')
    as [[e' | reply'] w2''];
    cbn [fst] in *; try discriminate; [congruence |].
  injection Hhyb as <-.
  destruct (build_context (objects reply)) as [e | ctx]; [reflexivity |].
  specialize (Hgen coll query (grounding_directive +:+ query) w1'' w2'').
  destruct (generate_near_text client coll query _ w1'') as [[e | g] w1'''],
    (generate_near_text client coll query _ w2'') as [[e' | g'] w2'''];
    cbn [fst] in *; try discriminate; [congruence |].
  injection Hgen as <-.
  destruct (comprehension source_entry (objects reply)); reflexivity.
Qed.

Lemma identical_calls_identical_results_witness :
  deterministic (stub_backend election_stub) /\
  (retrieve_and_generate (stub_backend election_stub)
     "When is the election?" 2 0%nat []).1.1
  = (retrieve_and_generate (stub_backend election_stub)
       "When is the election?" 2 2%nat
       (full_exchange wiki_chunk "When is the election?" 2)).1.1.
Proof.
  split; [apply stub_deterministic |].
  apply (identical_calls_identical_results (stub_backend election_stub)
           "When is the election?" 2 0%nat [] 2%nat
           (full_exchange wiki_chunk "When is the election?" 2)).
  apply stub_deterministic.
Defined.

(** ** The unused context *)

(** C10, as stated, fails: an object that lacks its [chunk] property makes
    the context construction raise [KeyError] before the generative query
    is sent, while the variant without the construction sends it and
    returns. *)
Lemma context_construction_can_raise :
  retrieve_and_generate (stub_backend partial_stub)
    "When is the election?" 1 0%nat []
  = (inl (KeyError "chunk"), 1%nat,
     take 2 (full_exchange wiki_chunk "When is the election?" 1)) /\
  retrieve_and_generate_without_context (stub_backend partial_stub)
    "When is the election?" 1 0%nat []
  = (inr {| answer := election_answer;
            sources :=
              [ {| title := PyStr "Election Day"; chunk_number := PyInt 1;
                   source_distance := Some 0.30%float |} ] |},
     2%nat, full_exchange wiki_chunk "When is the election?" 1) /\
  retrieve_and_generate (stub_backend partial_stub)
    "When is the election?" 1 0%nat []
  <> retrieve_and_generate_without_context (stub_backend partial_stub)
       "When is the election?" 1 0%nat [].
Proof.
  split; [vm_compute; reflexivity |].
  split; [vm_compute; reflexivity |].
  vm_compute. discriminate.
Qed.

(** C10, amended. The context string is built and dropped.  On every
    input and against every backend, when the objects that the hybrid
    search of the call returns carry the three properties asked for, with
    values that [str] returns on, [retrieve_and_generate] and its variant
    without the context construction end the same way: the same result or
    exception, the same backend state and the same requests sent. *)
Theorem context_is_never_used {W} (client : Backend W)
    query num_chunks w tr :
  (forall coll w1 reply w2,
      collections_get client "WikiChunk" w = (inr coll, w1) ->
      query_hybrid client coll query num_chunks asked_metadata
        asked_properties w1 = (inr reply, w2) ->
      Forall (fun obj => carries asked_properties obj /\ renders obj = true)
        (objects reply)) ->
  retrieve_and_generate client query num_chunks w tr
  = retrieve_and_generate_without_context client query num_chunks w tr.
Proof.
  intros Hreply.
  rewrite retrieve_and_generate_cases,
    retrieve_and_generate_without_context_cases.
  destruct (collections_get client "WikiChunk" w) as [[e | coll] w1]
    eqn:Hget; [reflexivity |].
  destruct (query_hybrid client coll query num_chunks _ _ w1)
    as [[e | reply] w2] eqn:Hhyb; [reflexivity |].
  assert (Hall : Forall (carries asked_properties) (objects reply)).
  { eapply Forall_impl; [exact (Hreply coll w1 reply w2 eq_refl Hhyb) |].
    now intros obj [Hcarries _]. }
  destruct (build_context_carries _ Hall) as [ctx ->].
  reflexivity.
Qed.

Lemma context_is_never_used_witness :
  (forall coll w1 reply w2,
      collections_get (stub_backend election_stub) "WikiChunk" 0%nat
      = (inr coll, w1) ->
      query_hybrid (stub_backend election_stub) coll "When is the election?"
        2 asked_metadata asked_properties w1 = (inr reply, w2) ->
      Forall (fun obj => carries asked_properties obj /\ renders obj = true)
        (objects reply)) /\
  retrieve_and_generate (stub_backend election_stub)
    "When is the election?" 2 0%nat []
  = retrieve_and_generate_without_context (stub_backend election_stub)
      "When is the election?" 2 0%nat [].
Proof.
  assert (Hreply :
    forall coll w1 reply w2,
      collections_get (stub_backend election_stub) "WikiChunk" 0%nat
      = (inr coll, w1) ->
      query_hybrid (stub_backend election_stub) coll "When is the election?"
        2 asked_metadata asked_properties w1 = (inr reply, w2) ->
      Forall (fun obj => carries asked_properties obj /\ renders obj = true)
        (objects reply)).
  { intros coll w1 reply w2 _ Hhyb. injection Hhyb as <- _.
    constructor; [split; [apply object_of_chunk_carries |] |].
    { vm_compute. reflexivity. }
    constructor; [split; [apply object_of_chunk_carries |] | constructor].
    vm_compute. reflexivity. }
  split; [exact Hreply |].
  apply (context_is_never_used (stub_backend election_stub)
           "When is the election?" 2 0%nat [] Hreply).
Defined.

(** ** What the generation is grounded in *)

(** Against the stub backends, the answer is decided by the generative
    query alone: the hits of the hybrid search and the chunk limit have
    no part in it. *)
Lemma answer_blind_to_retrieved_chunks s1 s2 query n1 n2 r1 w1 tr1 r2 w2 tr2 :
  near_text_reply s1 = near_text_reply s2 ->
  retrieve_and_generate (stub_backend s1) query n1 0%nat []
  = (inr r1, w1, tr1) ->
  retrieve_and_generate (stub_backend s2) query n2 0%nat []
  = (inr r2, w2, tr2) ->
  answer r1 = answer r2.
Proof.
  intros Hsame Hrun1 Hrun2.
  apply retrieve_and_generate_returns in Hrun1
    as (c1 & ? & ? & ? & ? & g1 & Hget1 & _ & _ & Hgen1 & _ & Hans1 & _).
  apply retrieve_and_generate_returns in Hrun2
    as (c2 & ? & ? & ? & ? & g2 & Hget2 & _ & _ & Hgen2 & _ & Hans2 & _).
  cbn in Hgen1, Hgen2. rewrite Hans1, Hans2. congruence.
Qed.

(** C2. The generation is a second search.  A call that returns has sent
    two searches, the hybrid one and the generative near-text one, and the
    second carries the question and the instruction only: neither the
    context, nor the chunks, nor the limit.  So with the slider at 1 the
    hybrid search returns the chunk of [2024 US Election], which alone
    fills [sources], while the generative query runs its own near-text
    search and generates over that search's hits, here both chunks and in
    another order.  The answer returned is that text. *)
Theorem generation_runs_its_own_search :
  (forall W (client : Backend W) query num_chunks w tr r w' tr',
      retrieve_and_generate client query num_chunks w tr = (inr r, w', tr') ->
      exists coll,
        filter is_search (drop (length tr) tr')
        = [ QueryHybrid coll query num_chunks asked_metadata
              asked_properties;
            GenerateNearText coll query (grounding_directive +:+ query) ]) /\
  exists r reply g,
    retrieve_and_generate (stub_backend drifting_stub)
      "When is the election?" 1 0%nat []
    = (inr r, 2%nat, full_exchange wiki_chunk "When is the election?" 1) /\
    query_hybrid (stub_backend drifting_stub) wiki_chunk
      "When is the election?" 1 asked_metadata asked_properties 0%nat
    = (inr reply, 1%nat) /\
    generate_near_text (stub_backend drifting_stub) wiki_chunk
      "When is the election?"
      (grounding_directive +:+ "When is the election?") 1%nat
    = (inr g, 2%nat) /\
    answer r = generated g /\
    objects reply = [election_2024] /\
    sources r = [ {| title := PyStr "2024 US Election";
                     chunk_number := PyInt 3;
                     source_distance := Some 0.12%float |} ] /\
    generative_objects g = [election_day; election_2024].
Proof.
  split.
  - intros W client query num_chunks w tr r w' tr' Hrun.
    apply retrieve_and_generate_returns in Hrun
      as (coll & _ & _ & _ & _ & _ & _ & _ & _ & _ & _ & _ & ->).
    exists coll. now rewrite drop_app_length.
  - eexists _, _, _. repeat split; vm_compute; reflexivity.
Qed.

(** ** The cache and the guard on the question *)

(** The cache either replays or runs the body. *)
Lemma st_cache_resource_hit {W} (body : string -> Z -> Prog W Result)
    query num_chunks (cache : Cache) w tr stored :
  cache !! (query, num_chunks) = Some stored ->
  st_cache_resource body query num_chunks cache w tr
  = (inr stored, cache, w, tr).
Proof. intros Hhit. unfold st_cache_resource. now rewrite Hhit. Qed.

Lemma st_cache_resource_miss {W} (body : string -> Z -> Prog W Result)
    query num_chunks (cache : Cache) w tr :
  cache !! (query, num_chunks) = None ->
  st_cache_resource body query num_chunks cache w tr
  = match body query num_chunks w tr with
    | (inr result, w', tr') =>
        (inr result, <[(query, num_chunks) := result]> cache, w', tr')
    | (inl e, w', tr') => (inl e, cache, w', tr')
    end.
Proof. intros Hmiss. unfold st_cache_resource. now rewrite Hmiss. Qed.

(** C6, as stated, fails: a question made of one space is blank, and yet
    with the button pressed the handler runs the whole pipeline on it: the
    hybrid search and the generative query are sent with the question
    [ ], and the page shows an answer and its sources, not a failure. *)
Lemma whitespace_question_reaches_backend :
  blank " " = true /\
  exists cache,
    on_get_answer (stub_backend election_stub) true " " 2 ∅ 0%nat []
    = ([ StMarkdown "### Answer";
         StWrite election_answer;
         StMarkdown "### Sources Used";
         StMarkdown "- **2024 US Election** (Chunk 3)";
         StMarkdown "- **Election Day** (Chunk 1)" ],
       cache, 2%nat,
       [ CollectionsGet "WikiChunk";
         QueryHybrid wiki_chunk " " 2 asked_metadata asked_properties;
         GenerateNearText wiki_chunk " " (grounding_directive +:+ " ") ]).
Proof. split; [reflexivity |]. eexists. vm_compute. reflexivity. Qed.

(** The body looks at no property of the question: once the collection
    handle is there, the hybrid search is sent for the text as given. *)
Lemma retrieve_and_generate_sends_search {W} (client : Backend W)
    query num_chunks w tr coll w1 :
  collections_get client "WikiChunk" w = (inr coll, w1) ->
  QueryHybrid coll query num_chunks asked_metadata asked_properties
  ∈ drop (length tr) (retrieve_and_generate client query num_chunks w tr).2.
Proof.
  intros Hget. rewrite retrieve_and_generate_cases, Hget.
  destruct (query_hybrid client coll query num_chunks _ _ w1)
    as [[e | reply] w2]; cbn [snd].
  { rewrite drop_app_length. apply list_elem_of_further, list_elem_of_here. }
  destruct (build_context (objects reply)); cbn [snd].
  { rewrite drop_app_length. apply list_elem_of_further, list_elem_of_here. }
  destruct (generate_near_text client coll query _ w2) as [[e | g] w3];
    cbn [snd].
  { rewrite drop_app_length. apply list_elem_of_further, list_elem_of_here. }
  destruct (comprehension source_entry (objects reply)); cbn [snd];
    rewrite drop_app_length; apply list_elem_of_further, list_elem_of_here.
Qed.

(** Nor does it hold the generative query back: once the search has
    returned and the context is built, it is sent for the text as given. *)
Lemma retrieve_and_generate_sends_generation {W} (client : Backend W)
    query num_chunks w tr coll w1 reply w2 ctx :
  collections_get client "WikiChunk" w = (inr coll, w1) ->
  query_hybrid client coll query num_chunks asked_metadata asked_properties w1
  = (inr reply, w2) ->
  build_context (objects reply) = inr ctx ->
  GenerateNearText coll query (grounding_directive +:+ query)
  ∈ drop (length tr) (retrieve_and_generate client query num_chunks w tr).2.
Proof.
  intros Hget Hhyb Hctx.
  rewrite retrieve_and_generate_cases, Hget, Hhyb, Hctx.
  destruct (generate_near_text client coll query _ w2) as [[e | g] w3];
    cbn [snd].
  { rewrite drop_app_length.
    apply list_elem_of_further, list_elem_of_further, list_elem_of_here. }
  destruct (comprehension source_entry (objects reply)); cbn [snd];
    rewrite drop_app_length;
    apply list_elem_of_further, list_elem_of_further, list_elem_of_here.
Qed.

(** C6, amended. The one check on the question is the handler's guard.
    For the empty question nothing happens: no request is sent, the
    backend and the cache are untouched and the page shows nothing, a
    failure included.  Any question of at least one character, white
    space or not, goes to [retrieve_and_generate] as it was typed when the
    button is pressed.  Unless the cache already holds a result for it,
    the body runs on that very text: the backend ends where the body
    leaves it and the requests sent are the body's; the hybrid search for
    that text is among them once [collections.get] has returned, and the
    generation request for that text as well once the search has returned
    objects that carry the three properties, with values [str] returns
    on; an exception of the body is what the page shows.  When the cache
    holds a result, the page shows it and nothing is sent. *)
Theorem empty_question_is_skipped {W} (client : Backend W)
    num_chunks (cache : Cache) w tr :
  (forall button,
      on_get_answer client button EmptyString num_chunks cache w tr
      = ([], cache, w, tr)) /\
  (forall c rest,
      cache !! (String c rest, num_chunks) = None ->
      exists shown cache',
        on_get_answer client true (String c rest) num_chunks cache w tr
        = (shown, cache',
           (retrieve_and_generate client (String c rest) num_chunks w tr).1.2,
           (retrieve_and_generate client (String c rest) num_chunks w tr).2)
        /\
        (forall e,
            (retrieve_and_generate client (String c rest) num_chunks w tr).1.1
            = inl e ->
            shown = [StError e; StException e]) /\
        (forall coll w1,
            collections_get client "WikiChunk" w = (inr coll, w1) ->
            QueryHybrid coll (String c rest) num_chunks asked_metadata
              asked_properties
            ∈ drop (length tr)
                (retrieve_and_generate client (String c rest) num_chunks
                   w tr).2) /\
        (forall coll w1 reply w2,
            collections_get client "WikiChunk" w = (inr coll, w1) ->
            query_hybrid client coll (String c rest) num_chunks
              asked_metadata asked_properties w1 = (inr reply, w2) ->
            Forall
              (fun obj => carries asked_properties obj /\ renders obj = true)
              (objects reply) ->
            GenerateNearText coll (String c rest)
              (grounding_directive +:+ String c rest)
            ∈ drop (length tr)
                (retrieve_and_generate client (String c rest) num_chunks
                   w tr).2)) /\
  (forall c rest stored,
      cache !! (String c rest, num_chunks) = Some stored ->
      on_get_answer client true (String c rest) num_chunks cache w tr
      = (show_result stored, cache, w, tr)).
Proof.
  split; [| split].
  - intros button. unfold on_get_answer. cbn [py_truthy].
    now rewrite andb_false_r.
  - intros c rest Hmiss. unfold on_get_answer. cbn [py_truthy andb].
    rewrite st_cache_resource_miss by exact Hmiss.
    pose proof (retrieve_and_generate_sends_search client (String c rest)
                  num_chunks w tr) as Hsearch.
    assert (Hgeneration :
      forall coll w1 reply w2,
        collections_get client "WikiChunk" w = (inr coll, w1) ->
        query_hybrid client coll (String c rest) num_chunks
          asked_metadata asked_properties w1 = (inr reply, w2) ->
        Forall
          (fun obj => carries asked_properties obj /\ renders obj = true)
          (objects reply) ->
        GenerateNearText coll (String c rest)
          (grounding_directive +:+ String c rest)
        ∈ drop (length tr)
            (retrieve_and_generate client (String c rest) num_chunks
               w tr).2).
    { intros coll w1 reply w2 Hget Hhyb Hall.
      destruct (build_context_carries (objects reply)) as [ctx Hctx].
      - eapply Forall_impl; [exact Hall |]. now intros obj [Hcarries _].
      - eapply retrieve_and_generate_sends_generation; eassumption. }
    destruct (retrieve_and_generate client (String c rest) num_chunks w tr)
      as [[[e | r] w'] tr']; cbn [fst snd] in *.
    + do 2 eexists. split; [reflexivity |].
      split; [now intros e' [= <-] |].
      split; [exact Hsearch | exact Hgeneration].
    + do 2 eexists. split; [reflexivity |]. split; [discriminate |].
      split; [exact Hsearch | exact Hgeneration].
  - intros c rest stored Hhit. unfold on_get_answer. cbn [py_truthy andb].
    now rewrite (st_cache_resource_hit _ _ _ _ _ _ stored Hhit).
Qed.

Lemma empty_question_is_skipped_witness :
  on_get_answer (stub_backend election_stub) false EmptyString 2 ∅ 0%nat []
  = ([], ∅, 0%nat, []) /\
  (∅ : Cache) !! (" ", 2) = None /\
  (exists shown cache',
      on_get_answer (stub_backend election_stub) true " " 2 ∅ 0%nat []
      = (shown, cache',
         (retrieve_and_generate (stub_backend election_stub) " " 2
            0%nat []).1.2,
         (retrieve_and_generate (stub_backend election_stub) " " 2
            0%nat []).2)) /\
  QueryHybrid wiki_chunk " " 2 asked_metadata asked_properties
  ∈ drop (length (@nil Request))
      (retrieve_and_generate (stub_backend election_stub) " " 2 0%nat []).2
  /\
  GenerateNearText wiki_chunk " " (grounding_directive +:+ " ")
  ∈ drop (length (@nil Request))
      (retrieve_and_generate (stub_backend election_stub) " " 2 0%nat []).2.
Proof.
  destruct (empty_question_is_skipped (stub_backend election_stub) 2 ∅
              0%nat []) as (Hempty & Hmiss & _).
  split; [apply Hempty |]. split; [reflexivity |].
  destruct (Hmiss " "%char EmptyString eq_refl)
    as (shown & cache' & Hrun & _ & Hsearch & Hgeneration).
  split; [exists shown, cache'; exact Hrun |]. split.
  - exact (Hsearch wiki_chunk 0%nat eq_refl).
  - refine (Hgeneration wiki_chunk 0%nat
              {| objects := [election_2024; election_day] |} 1%nat
              eq_refl eq_refl _).
    constructor; [split; [apply object_of_chunk_carries |] |].
    { vm_compute. reflexivity. }
    constructor; [split; [apply object_of_chunk_carries |] | constructor].
    vm_compute. reflexivity.
Defined.

(** With the cache in front, a second call with the same question and
    limit replays the first call's result and sends nothing, whatever the
    backend. *)
Lemma second_call_is_replayed {W} (client : Backend W)
    query num_chunks (cache : Cache) w tr r cache1 w1 tr1 :
  st_cache_resource (retrieve_and_generate client) query num_chunks
    cache w tr = (inr r, cache1, w1, tr1) ->
  st_cache_resource (retrieve_and_generate client) query num_chunks
    cache1 w1 tr1 = (inr r, cache1, w1, tr1).
Proof.
  unfold st_cache_resource at 1.
  destruct (cache !! (query, num_chunks)) as [stored |] eqn:Hcache.
  - intros [= <- <- <- <-]. now apply st_cache_resource_hit.
  - destruct (retrieve_and_generate client query num_chunks w tr)
      as [[[e | r'] w'] tr']; [discriminate |].
    intros [= <- <- <- <-]. apply st_cache_resource_hit.
    apply lookup_insert_eq.
Qed.

(** ** Which exceptions a call raises, and when *)

(** The f-string reads [title], [chunk_number] and [chunk], in that
    order. *)
Lemma format_chunk_inl obj e :
  format_chunk obj = inl e ->
  exists before k after,
    ["title"; "chunk_number"; "chunk"] = (before ++ k :: after)%list /\
    Forall (fun p => is_Some (properties obj !! p)) before /\
    properties obj !! k = None /\
    e = KeyError k.
Proof.
  unfold format_chunk, subscript.
  destruct (properties obj !! "title") as [t |] eqn:Ht; cbn.
  - destruct (properties obj !! "chunk_number") as [n |] eqn:Hn; cbn.
    + destruct (properties obj !! "chunk") as [c |] eqn:Hc; cbn;
        [discriminate |].
      intros [= <-]. exists ["title"; "chunk_number"], "chunk", [].
      repeat split; auto; repeat constructor; eauto.
    + intros [= <-]. exists ["title"], "chunk_number", ["chunk"].
      repeat split; auto; repeat constructor; eauto.
  - intros [= <-]. exists [], "title", ["chunk_number"; "chunk"].
    repeat split; auto.
Qed.

Lemma format_chunk_inr_carries obj s :
  format_chunk obj = inr s -> carries asked_properties obj.
Proof.
  unfold format_chunk, subscript, carries, asked_properties.
  destruct (properties obj !! "title") as [t |] eqn:Ht; cbn;
    [| discriminate].
  destruct (properties obj !! "chunk_number") as [n |] eqn:Hn; cbn;
    [| discriminate].
  destruct (properties obj !! "chunk") as [c |] eqn:Hc; cbn;
    [| discriminate].
  intros _. repeat constructor; eauto.
Qed.

(** A comprehension that raises does so at its first element that
    raises; the elements before it returned. *)
Lemma comprehension_inl {A B} (f : A -> Exc B) l e :
  comprehension f l = inl e ->
  exists done x rest,
    l = (done ++ x :: rest)%list /\
    Forall (fun y => exists v, f y = inr v) done /\
    f x = inl e.
Proof.
  induction l as [| x l IH]; [discriminate |].
  rewrite comprehension_cons.
  destruct (f x) as [e' | y] eqn:Hx.
  - intros [= <-]. exists [], x, l. repeat split; auto.
  - destruct (comprehension f l) as [e' | ys]; [| discriminate].
    intros [= <-]. destruct (IH eq_refl) as (done & x' & rest & -> & Hdone & Hx').
    exists (x :: done), x', rest. repeat split; eauto.
Qed.

Lemma build_context_inr_carries objs ctx :
  build_context objs = inr ctx -> Forall (carries asked_properties) objs.
Proof.
  unfold build_context.
  destruct (comprehension format_chunk objs) as [e | parts] eqn:Hparts;
    [discriminate |].
  intros _. apply comprehension_inr in Hparts.
  induction Hparts as [| obj part objs parts Hobj _ IH]; constructor;
    [eapply format_chunk_inr_carries; exact Hobj | exact IH].
Qed.

(** The limit of [str] sits between 4300 and 4301 digits; a 64-bit
    integer is far inside it. *)
Example str_returns_boundary :
  str_returns (PyInt (10 ^ 4300 - 1)) = true /\
  str_returns (PyInt (- (10 ^ 4300))) = false /\
  str_returns (PyInt (2 ^ 63 - 1)) = true /\
  str_returns (PyInt (- (2 ^ 63))) = true.
Proof. repeat split; vm_compute; reflexivity. Qed.

(** The context construction raises at the first object that lacks a
    key, for the first key it lacks. *)
Lemma build_context_inl objs e :
  build_context objs = inl e ->
  exists done obj rest before k after,
    objs = (done ++ obj :: rest)%list /\
    Forall (carries asked_properties) done /\
    ["title"; "chunk_number"; "chunk"] = (before ++ k :: after)%list /\
    Forall (fun p => is_Some (properties obj !! p)) before /\
    properties obj !! k = None /\
    e = KeyError k.
Proof.
  unfold build_context.
  destruct (comprehension format_chunk objs) as [e' | parts] eqn:Hparts;
    [| discriminate].
  intros [= <-].
  apply comprehension_inl in Hparts
    as (done & obj & rest & -> & Hdone & Hobj).
  apply format_chunk_inl in Hobj
    as (before & k & after & Horder & Hbefore & Hk & ->).
  exists done, obj, rest, before, k, after. repeat split; auto.
  eapply Forall_impl; [exact Hdone |].
  intros o [v Hv]. eapply format_chunk_inr_carries. exact Hv.
Qed.

(** X3. On objects whose values [str] returns on, the context
    construction returns exactly when every retrieved object carries
    [title], [chunk] and [chunk_number].  Otherwise it raises the
    [KeyError] of the first object that lacks one, for the first key that
    object lacks in the order the f-string reads them: [title],
    [chunk_number], [chunk]. *)
Theorem build_context_returns_iff_properties_present (objs : list Object) :
  Forall (fun obj => renders obj = true) objs ->
  ((exists ctx, build_context objs = inr ctx) <->
   Forall (carries asked_properties) objs) /\
  (forall e,
      build_context objs = inl e ->
      exists done obj rest before k after,
        objs = (done ++ obj :: rest)%list /\
        Forall (carries asked_properties) done /\
        ["title"; "chunk_number"; "chunk"] = (before ++ k :: after)%list /\
        Forall (fun p => is_Some (properties obj !! p)) before /\
        properties obj !! k = None /\
        e = KeyError k).
Proof.
  intros _. split.
  - split.
    + intros [ctx Hctx]. eapply build_context_inr_carries. exact Hctx.
    + apply build_context_carries.
  - apply build_context_inl.
Qed.

Lemma build_context_returns_iff_properties_present_witness :
  Forall (fun obj => renders obj = true)
    [election_2024; headline_only; election_day] /\
  ((exists ctx,
       build_context [election_2024; headline_only; election_day] = inr ctx)
   <-> Forall (carries asked_properties)
         [election_2024; headline_only; election_day]) /\
  (forall e,
      build_context [election_2024; headline_only; election_day] = inl e ->
      exists done obj rest before k after,
        [election_2024; headline_only; election_day]
        = (done ++ obj :: rest)%list /\
        Forall (carries asked_properties) done /\
        ["title"; "chunk_number"; "chunk"] = (before ++ k :: after)%list /\
        Forall (fun p => is_Some (properties obj !! p)) before /\
        properties obj !! k = None /\
        e = KeyError k).
Proof.
  assert (Hrenders : Forall (fun obj => renders obj = true)
                       [election_2024; headline_only; election_day]).
  { repeat (constructor; [vm_compute; reflexivity |]). constructor. }
  split; [exact Hrenders |].
  apply (build_context_returns_iff_properties_present
           [election_2024; headline_only; election_day] Hrenders).
Defined.

Example build_context_headline_only :
  build_context [election_2024; headline_only; election_day]
  = inl (KeyError "chunk").
Proof. vm_compute. reflexivity. Qed.

(** Once the context is built, the [sources] comprehension returns: it
    reads two of the keys the context has read. *)
Lemma sources_after_context objs ctx :
  build_context objs = inr ctx ->
  exists srcs, comprehension source_entry objs = inr srcs.
Proof.
  intros Hctx. apply sources_carries.
  eapply build_context_inr_carries. exact Hctx.
Qed.

(** A hybrid search sent by a call is for the call's question and
    limit. *)
Lemma hybrid_requests_carry_the_question {W} (client : Backend W)
    query num_chunks w tr coll q n md props :
  QueryHybrid coll q n md props
  ∈ drop (length tr) (retrieve_and_generate client query num_chunks w tr).2 ->
  q = query /\ n = num_chunks.
Proof.
  rewrite retrieve_and_generate_cases.
  destruct (collections_get client "WikiChunk" w) as [[e | coll0] w1];
    cbn [snd].
  { rewrite drop_app_length, !elem_of_cons, elem_of_nil.
    intros [[=] | []]. }
  assert (Hfull :
    QueryHybrid coll q n md props
    ∈ drop (length tr) (tr ++ full_exchange coll0 query num_chunks) ->
    q = query /\ n = num_chunks).
  { rewrite drop_app_length. unfold full_exchange.
    rewrite !elem_of_cons, elem_of_nil.
    intros [[=] | [[= _ -> ->] | [[=] | []]]]. auto. }
  assert (Hpart :
    QueryHybrid coll q n md props
    ∈ drop (length tr) (tr ++ take 2 (full_exchange coll0 query num_chunks)) ->
    q = query /\ n = num_chunks).
  { rewrite drop_app_length. unfold full_exchange. cbn [take].
    rewrite !elem_of_cons, elem_of_nil.
    intros [[=] | [[= _ -> ->] | []]]. auto. }
  destruct (query_hybrid client coll0 query num_chunks _ _ w1)
    as [[e | reply] w2]; cbn [snd]; [exact Hpart |].
  destruct (build_context (objects reply)); cbn [snd]; [exact Hpart |].
  destruct (generate_near_text client coll0 query _ w2) as [[e | g] w3];
    cbn [snd]; [exact Hfull |].
  destruct (comprehension source_entry (objects reply)); exact Hfull.
Qed.

(** X5. Whatever way a call goes, it leaves the requests logged before it
    as they were and adds a non-empty beginning of the exchange
    [collections.get], hybrid search, generative query: each is sent at
    most once, in that order, and none is sent again after a failure. *)
Theorem requests_are_a_prefix_of_the_exchange {W} (client : Backend W)
    query num_chunks w tr :
  exists coll issued,
    (retrieve_and_generate client query num_chunks w tr).2
    = (tr ++ issued)%list /\
    issued <> [] /\
    issued `prefix_of` full_exchange coll query num_chunks.
Proof.
  rewrite retrieve_and_generate_cases.
  destruct (collections_get client "WikiChunk" w) as [[e | coll] w1].
  { exists wiki_chunk, [CollectionsGet "WikiChunk"]. cbn [snd].
    repeat split; [discriminate |]. now eexists. }
  assert (Hpart :
    exists issued,
      (tr ++ take 2 (full_exchange coll query num_chunks))%list
      = (tr ++ issued)%list /\
      issued <> [] /\ issued `prefix_of` full_exchange coll query num_chunks).
  { eexists. repeat split; [discriminate |]. now eexists. }
  assert (Hfull :
    exists issued,
      (tr ++ full_exchange coll query num_chunks)%list = (tr ++ issued)%list /\
      issued <> [] /\ issued `prefix_of` full_exchange coll query num_chunks).
  { eexists. repeat split; [discriminate |]. reflexivity. }
  exists coll.
  destruct (query_hybrid client coll query num_chunks _ _ w1)
    as [[e | reply] w2]; [exact Hpart |].
  destruct (build_context (objects reply)); [exact Hpart |].
  destruct (generate_near_text client coll query _ w2) as [[e | g] w3];
    [exact Hfull |].
  destruct (comprehension source_entry (objects reply)); exact Hfull.
Qed.

(** X1. When the generative query raises after a search whose objects
    carry the three properties, the call ends with that exception: no
    answer is made up, and the retrieved chunks are dropped with it. *)
Theorem generation_failure_propagates {W} (client : Backend W)
    query num_chunks w tr coll w1 reply w2 e w3 :
  collections_get client "WikiChunk" w = (inr coll, w1) ->
  query_hybrid client coll query num_chunks asked_metadata asked_properties w1
  = (inr reply, w2) ->
  Forall (carries asked_properties) (objects reply) ->
  generate_near_text client coll query (grounding_directive +:+ query) w2
  = (inl e, w3) ->
  retrieve_and_generate client query num_chunks w tr
  = (inl e, w3, (tr ++ full_exchange coll query num_chunks)%list).
Proof.
  intros Hget Hhyb Hall Hgen.
  destruct (build_context_carries _ Hall) as [ctx Hctx].
  now rewrite retrieve_and_generate_cases, Hget, Hhyb, Hctx, Hgen.
Qed.

Lemma generation_failure_propagates_witness :
  Forall (carries asked_properties) [election_2024; election_day] /\
  retrieve_and_generate (stub_backend mute_stub) "When is the election?" 2
    0%nat []
  = (inl (BackendError "generative module not enabled"), 2%nat,
     ([] ++ full_exchange wiki_chunk "When is the election?" 2)%list).
Proof.
  assert (Hall : Forall (carries asked_properties)
                   [election_2024; election_day]).
  { constructor; [apply object_of_chunk_carries |].
    constructor; [apply object_of_chunk_carries | constructor]. }
  split; [exact Hall |].
  apply (generation_failure_propagates (stub_backend mute_stub)
           "When is the election?" 2 0%nat [] wiki_chunk 0%nat
           {| objects := [election_2024; election_day] |} 1%nat
           (BackendError "generative module not enabled") 2%nat);
    [reflexivity | reflexivity | exact Hall | reflexivity].
Defined.




(** X2. When the objects that the hybrid search of the call returns
    hold values [str] returns on, an exception that comes out of the call
    is one of four: the one [collections.get] raised, the one the hybrid
    search raised, a [KeyError] for [title], [chunk] or [chunk_number] on
    a returned object that lacks it, raised before the generative query
    is sent, or the one the generative query raised.  Nothing is raised
    once the generative query has answered: the [sources] comprehension
    cannot fail there. *)
Theorem raised_exception_provenance {W} (client : Backend W)
    query num_chunks w tr e w' tr' :
  (forall coll w1 reply w2,
      collections_get client "WikiChunk" w = (inr coll, w1) ->
      query_hybrid client coll query num_chunks asked_metadata
        asked_properties w1 = (inr reply, w2) ->
      Forall (fun obj => renders obj = true) (objects reply)) ->
  retrieve_and_generate client query num_chunks w tr = (inl e, w', tr') ->
  collections_get client "WikiChunk" w = (inl e, w') \/
  exists coll w1,
    collections_get client "WikiChunk" w = (inr coll, w1) /\
    (query_hybrid client coll query num_chunks asked_metadata
       asked_properties w1 = (inl e, w') \/
     exists reply w2,
       query_hybrid client coll query num_chunks asked_metadata
         asked_properties w1 = (inr reply, w2) /\
       ((w' = w2 /\
         tr' = (tr ++ take 2 (full_exchange coll query num_chunks))%list /\
         exists k obj,
           e = KeyError k /\ k ∈ asked_properties /\
           obj ∈ objects reply /\ properties obj !! k = None) \/
        generate_near_text client coll query
          (grounding_directive +:+ query) w2 = (inl e, w'))).
Proof.
  intros _. rewrite retrieve_and_generate_cases.
  destruct (collections_get client "WikiChunk" w) as [[e0 | coll] w1].
  { intros [= <- <- _]. now left. }
  intros Hrun. right. exists coll, w1. split; [reflexivity |].
  destruct (query_hybrid client coll query num_chunks _ _ w1)
    as [[e0 | reply] w2].
  { injection Hrun as <- <- _. now left. }
  right. exists reply, w2. split; [reflexivity |].
  destruct (build_context (objects reply)) as [e0 | ctx] eqn:Hctx.
  - injection Hrun as <- <- <-. left. split; [reflexivity |].
    split; [reflexivity |].
    destruct (build_context_inl _ _ Hctx)
      as (done & obj & rest & before & k & after
          & Hobjs & _ & Horder & _ & Hk & ->).
    exists k, obj. repeat split; auto.
    + assert (Hin : k ∈ ["title"; "chunk_number"; "chunk"]).
      { rewrite Horder. apply elem_of_app. right. left. }
      unfold asked_properties. rewrite !elem_of_cons in Hin |- *. tauto.
    + rewrite Hobjs. apply elem_of_app. right. left.
  - destruct (generate_near_text client coll query _ w2) as [[e0 | g] w3].
    { injection Hrun as <- <- _. now right. }
    destruct (sources_after_context _ _ Hctx) as [srcs Hsrcs].
    rewrite Hsrcs in Hrun. discriminate.
Qed.

Lemma raised_exception_provenance_witness :
  (forall coll w1 reply w2,
      collections_get (stub_backend mute_stub) "WikiChunk" 0%nat
      = (inr coll, w1) ->
      query_hybrid (stub_backend mute_stub) coll "When is the election?" 2
        asked_metadata asked_properties w1 = (inr reply, w2) ->
      Forall (fun obj => renders obj = true) (objects reply)) /\
  retrieve_and_generate (stub_backend mute_stub) "When is the election?" 2
    0%nat []
  = (inl (BackendError "generative module not enabled"), 2%nat,
     full_exchange wiki_chunk "When is the election?" 2) /\
  (collections_get (stub_backend mute_stub) "WikiChunk" 0%nat
   = (inl (BackendError "generative module not enabled"), 2%nat) \/
   exists coll w1,
     collections_get (stub_backend mute_stub) "WikiChunk" 0%nat
     = (inr coll, w1) /\
     (query_hybrid (stub_backend mute_stub) coll "When is the election?" 2
        asked_metadata asked_properties w1
      = (inl (BackendError "generative module not enabled"), 2%nat) \/
      exists reply w2,
        query_hybrid (stub_backend mute_stub) coll "When is the election?" 2
          asked_metadata asked_properties w1 = (inr reply, w2) /\
        ((2%nat = w2 /\
          full_exchange wiki_chunk "When is the election?" 2
          = ([] ++ take 2 (full_exchange coll "When is the election?" 2))%list
          /\
          exists k obj,
            BackendError "generative module not enabled" = KeyError k /\
            k ∈ asked_properties /\
            obj ∈ objects reply /\ properties obj !! k = None) \/
         generate_near_text (stub_backend mute_stub) coll
           "When is the election?"
           (grounding_directive +:+ "When is the election?") w2
         = (inl (BackendError "generative module not enabled"), 2%nat)))).
Proof.
  assert (Hrenders :
    forall coll w1 reply w2,
      collections_get (stub_backend mute_stub) "WikiChunk" 0%nat
      = (inr coll, w1) ->
      query_hybrid (stub_backend mute_stub) coll "When is the election?" 2
        asked_metadata asked_properties w1 = (inr reply, w2) ->
      Forall (fun obj => renders obj = true) (objects reply)).
  { intros coll w1 reply w2 _ Hhyb. injection Hhyb as <- _.
    repeat (constructor; [vm_compute; reflexivity |]). constructor. }
  assert (Hrun :
    retrieve_and_generate (stub_backend mute_stub) "When is the election?" 2
      0%nat []
    = (inl (BackendError "generative module not enabled"), 2%nat,
       full_exchange wiki_chunk "When is the election?" 2)).
  { vm_compute. reflexivity. }
  split; [exact Hrenders |]. split; [exact Hrun |].
  exact (raised_exception_provenance (stub_backend mute_stub)
           "When is the election?" 2 0%nat [] _ _ _ Hrenders Hrun).
Defined.

(** ** How the context grows *)

Lemma py_join_app sep (parts1 parts2 : list string) :
  parts1 <> [] -> parts2 <> [] ->
  py_join sep (parts1 ++ parts2)
  = py_join sep parts1 +:+ sep +:+ py_join sep parts2.
Proof.
  intros Hne1 Hne2. induction parts1 as [| p parts1 IH]; [contradiction |].
  destruct parts1 as [| q parts1].
  - cbn [app]. rewrite py_join_cons. destruct parts2; [contradiction |].
    reflexivity.
  - change ((p :: q :: parts1) ++ parts2)%list
      with (p :: ((q :: parts1) ++ parts2))%list.
    rewrite py_join_cons. cbn [app]. rewrite <- app_comm_cons in IH.
    rewrite IH by discriminate.
    rewrite (py_join_cons sep p (q :: parts1)).
    now rewrite !append_assoc.
Qed.

Lemma comprehension_app {A B} (f : A -> Exc B) l1 l2 ys1 ys2 :
  comprehension f l1 = inr ys1 ->
  comprehension f l2 = inr ys2 ->
  comprehension f (l1 ++ l2) = inr (ys1 ++ ys2)%list.
Proof.
  rewrite !comprehension_inr. apply Forall2_app.
Qed.

(** X6. The context of two non-empty runs of chunks put end to end is
    the context of the first, a blank line, and the context of the
    second: the context is built chunk by chunk and a chunk's block does
    not depend on the chunks around it. *)
Theorem build_context_app (objs1 objs2 : list Object) ctx1 ctx2 :
  objs1 <> [] -> objs2 <> [] ->
  build_context objs1 = inr ctx1 ->
  build_context objs2 = inr ctx2 ->
  build_context (objs1 ++ objs2) = inr (ctx1 +:+ nl +:+ nl +:+ ctx2).
Proof.
  intros Hne1 Hne2. unfold build_context.
  destruct (comprehension format_chunk objs1) as [e | parts1] eqn:H1;
    [discriminate |].
  destruct (comprehension format_chunk objs2) as [e | parts2] eqn:H2;
    [discriminate |].
  intros [= <-] [= <-].
  rewrite (comprehension_app _ _ _ _ _ H1 H2). cbn [bind Exc_monad ret].
  f_equal. rewrite py_join_app, append_assoc; [reflexivity | |].
  - intros ->. apply comprehension_inr in H1. inversion H1. congruence.
  - intros ->. apply comprehension_inr in H2. inversion H2. congruence.
Qed.

Lemma build_context_app_witness :
  build_context ([election_2024] ++ [election_day])
  = inr (("From '2024 US Election' (chunk 3):" +:+ nl
          +:+ "...held November 5, 2024...")
         +:+ nl +:+ nl
         +:+ ("From 'Election Day' (chunk 1):" +:+ nl
              +:+ "...federal election day...")).
Proof.
  apply (build_context_app [election_2024] [election_day]);
    [discriminate | discriminate | vm_compute; reflexivity
    | vm_compute; reflexivity].
Defined.

(** ** What the page shows and what the cache keeps *)

(** The handler with the cache opened up. *)
Lemma on_get_answer_cases {W} (client : Backend W)
    button query num_chunks (cache : Cache) w tr :
  on_get_answer client button query num_chunks cache w tr =
  if button && py_truthy query then
    match cache !! (query, num_chunks) with
    | Some stored => (show_result stored, cache, w, tr)
    | None =>
        match retrieve_and_generate client query num_chunks w tr with
        | (inr result, w', tr') =>
            (show_result result, <[(query, num_chunks) := result]> cache,
             w', tr')
        | (inl e, w', tr') => ([StError e; StException e], cache, w', tr')
        end
    end
  else ([], cache, w, tr).
Proof.
  unfold on_get_answer, st_cache_resource.
  destruct (button && py_truthy query); [| reflexivity].
  destruct (cache !! (query, num_chunks)); [reflexivity |].
  destruct (retrieve_and_generate client query num_chunks w tr)
    as [[[e | r] w'] tr']; reflexivity.
Qed.

Lemma show_result_no_error result e : StError e ∉ show_result result.
Proof.
  unfold show_result. rewrite elem_of_app, !elem_of_cons, elem_of_nil.
  intros [[H | [H | [H | []]]] | H]; try discriminate.
  apply list_elem_of_fmap in H as (src & H & _). discriminate.
Qed.

Lemma show_result_answer result a :
  StWrite a ∈ show_result result <-> a = answer result.
Proof.
  unfold show_result. rewrite elem_of_app, !elem_of_cons, elem_of_nil. split.
  - intros [[H | [H | [H | []]]] | H]; try discriminate.
    + now injection H.
    + apply list_elem_of_fmap in H as (src & H & _). discriminate.
  - intros ->. left. right. now left.
Qed.

(** X7. An error on the page means the call failed and nothing was
    kept: when the handler shows [st.error] for [e], the page holds that
    error and its traceback and no answer, the button was pressed, the
    cache had no result for the question and is unchanged, and [e] is the
    exception [retrieve_and_generate] raised.  A failure is thus not
    cached: pressing again runs the pipeline again. *)
Theorem shown_error_means_failed_call {W} (client : Backend W)
    button query num_chunks (cache : Cache) w tr shown cache' w' tr' e :
  on_get_answer client button query num_chunks cache w tr
  = (shown, cache', w', tr') ->
  StError e ∈ shown ->
  shown = [StError e; StException e] /\
  button = true /\
  cache !! (query, num_chunks) = None /\
  cache' = cache /\
  retrieve_and_generate client query num_chunks w tr = (inl e, w', tr').
Proof.
  rewrite on_get_answer_cases.
  destruct button; cbn [andb].
  2: { intros [= <- _ _ _] Hin. now apply elem_of_nil in Hin. }
  destruct (py_truthy query).
  2: { intros [= <- _ _ _] Hin. now apply elem_of_nil in Hin. }
  destruct (cache !! (query, num_chunks)) as [stored |].
  { intros [= <- _ _ _] Hin. now apply show_result_no_error in Hin. }
  destruct (retrieve_and_generate client query num_chunks w tr)
    as [[[e0 | r] w0] tr0].
  - intros [= <- <- <- <-] Hin.
    rewrite !elem_of_cons, elem_of_nil in Hin.
    destruct Hin as [[= ->] | [[=] | []]]. auto.
  - intros [= <- _ _ _] Hin. now apply show_result_no_error in Hin.
Qed.

Lemma shown_error_means_failed_call_witness :
  on_get_answer (stub_backend unreachable_stub) true "When is the election?"
    3 ∅ 0%nat []
  = ([ StError (BackendError "connection refused");
       StException (BackendError "connection refused") ],
     ∅, 1%nat,
     [ CollectionsGet "WikiChunk";
       QueryHybrid wiki_chunk "When is the election?" 3 asked_metadata
         asked_properties ]) /\
  [ StError (BackendError "connection refused");
    StException (BackendError "connection refused") ]
  = [ StError (BackendError "connection refused");
      StException (BackendError "connection refused") ] /\
  true = true /\
  (∅ : Cache) !! ("When is the election?", 3) = None /\
  (∅ : Cache) = ∅ /\
  retrieve_and_generate (stub_backend unreachable_stub)
    "When is the election?" 3 0%nat []
  = (inl (BackendError "connection refused"), 1%nat,
     [ CollectionsGet "WikiChunk";
       QueryHybrid wiki_chunk "When is the election?" 3 asked_metadata
         asked_properties ]).
Proof.
  assert (Hrun :
    on_get_answer (stub_backend unreachable_stub) true
      "When is the election?" 3 ∅ 0%nat []
    = ([ StError (BackendError "connection refused");
         StException (BackendError "connection refused") ],
       ∅, 1%nat,
       [ CollectionsGet "WikiChunk";
         QueryHybrid wiki_chunk "When is the election?" 3 asked_metadata
           asked_properties ])).
  { vm_compute. reflexivity. }
  split; [exact Hrun |].
  apply (shown_error_means_failed_call _ _ _ _ _ _ _ _ _ _ _ _ Hrun).
  apply list_elem_of_here.
Defined.

(** X8. A question that has been answered is answered from the cache
    from then on: when a run of the handler has shown an answer, any later
    press with the same question and the same limit shows the same page
    and sends nothing, whichever client it is given and whatever state the
    backend is in by then. *)
Theorem answered_question_is_replayed {W} (client client' : Backend W)
    button query num_chunks (cache : Cache) w tr shown cache1 w1 tr1 a :
  on_get_answer client button query num_chunks cache w tr
  = (shown, cache1, w1, tr1) ->
  StWrite a ∈ shown ->
  forall w2 tr2,
    on_get_answer client' true query num_chunks cache1 w2 tr2
    = (shown, cache1, w2, tr2).
Proof.
  rewrite on_get_answer_cases. intros Hrun Hin w2 tr2.
  rewrite on_get_answer_cases.
  destruct button; cbn [andb] in *.
  2: { injection Hrun as <- _ _ _. now apply elem_of_nil in Hin. }
  destruct (py_truthy query).
  2: { injection Hrun as <- _ _ _. now apply elem_of_nil in Hin. }
  destruct (cache !! (query, num_chunks)) as [stored |] eqn:Hcache.
  { injection Hrun as <- <- <- <-. now rewrite Hcache. }
  destruct (retrieve_and_generate client query num_chunks w tr)
    as [[[e0 | r] w0] tr0].
  - injection Hrun as <- <- <- <-.
    rewrite !elem_of_cons, elem_of_nil in Hin.
    destruct Hin as [[=] | [[=] | []]].
  - injection Hrun as <- <- <- <-. unfold Cache in *.
    now rewrite lookup_insert_eq.
Qed.

Lemma answered_question_is_replayed_witness :
  on_get_answer (stub_backend election_stub) true "When is the election?"
    2 ∅ 0%nat []
  = (show_result election_result,
     <[("When is the election?", 2) := election_result]> ∅, 2%nat,
     full_exchange wiki_chunk "When is the election?" 2) /\
  StWrite election_answer ∈ show_result election_result /\
  on_get_answer (stub_backend unreachable_stub) true
    "When is the election?" 2
    (<[("When is the election?", 2) := election_result]> ∅) 7%nat []
  = (show_result election_result,
     <[("When is the election?", 2) := election_result]> ∅, 7%nat, []).
Proof.
  assert (Hrun :
    on_get_answer (stub_backend election_stub) true "When is the election?"
      2 ∅ 0%nat []
    = (show_result election_result,
       <[("When is the election?", 2) := election_result]> ∅, 2%nat,
       full_exchange wiki_chunk "When is the election?" 2)).
  { vm_compute. reflexivity. }
  assert (Hin : StWrite election_answer ∈ show_result election_result).
  { now apply show_result_answer. }
  split; [exact Hrun |]. split; [exact Hin |].
  exact (answered_question_is_replayed (stub_backend election_stub)
           (stub_backend unreachable_stub) true "When is the election?" 2
           ∅ 0%nat [] _ _ 2%nat
           (full_exchange wiki_chunk "When is the election?" 2)
           election_answer Hrun Hin 7%nat []).
Defined.

Lemma bullets_follow_objects objs srcs :
  Forall2 attributes objs srcs ->
  Forall2
    (fun obj bullet =>
       exists t n,
         properties obj !! "title" = Some t /\
         properties obj !! "chunk_number" = Some n /\
         bullet = source_bullet t n)
    objs
    (map (fun source =>
            StMarkdown ("- **" +:+ py_str (title source) +:+ "** (Chunk "
                        +:+ py_str (chunk_number source) +:+ ")"))
       srcs).
Proof.
  induction 1 as [| obj src objs srcs (Ht & Hn & _) _ IH];
    cbn [map]; constructor; [| exact IH].
  exists (title src), (chunk_number src). auto.
Qed.

(** X9. On a first press for a question, when the three requests
    succeed and the objects carry their properties, the page is the
    answer heading, the generated text, the sources heading and then one
    bullet per retrieved object, in retrieval order, made of that
    object's title and chunk number; neither the distance nor the chunk
    text is shown. *)
Theorem page_lists_retrieved_chunks {W} (client : Backend W)
    c rest num_chunks (cache : Cache) w tr coll w1 reply w2 g w3 :
  cache !! (String c rest, num_chunks) = None ->
  collections_get client "WikiChunk" w = (inr coll, w1) ->
  query_hybrid client coll (String c rest) num_chunks asked_metadata
    asked_properties w1 = (inr reply, w2) ->
  Forall (carries asked_properties) (objects reply) ->
  generate_near_text client coll (String c rest)
    (grounding_directive +:+ String c rest) w2 = (inr g, w3) ->
  exists bullets,
    (on_get_answer client true (String c rest) num_chunks cache w tr).1.1.1
    = ([ StMarkdown "### Answer";
         StWrite (generated g);
         StMarkdown "### Sources Used" ] ++ bullets)%list /\
    Forall2
      (fun obj bullet =>
         exists t n,
           properties obj !! "title" = Some t /\
           properties obj !! "chunk_number" = Some n /\
           bullet = source_bullet t n)
      (objects reply) bullets.
Proof.
  intros Hmiss Hget Hhyb Hall Hgen.
  destruct (retrieve_and_generate_succeeds client (String c rest) num_chunks
              w tr coll w1 reply w2 g w3 Hget Hhyb Hall Hgen)
    as (srcs & Hrun & Hsrcs).
  rewrite on_get_answer_cases. cbn [andb py_truthy].
  rewrite Hmiss, Hrun. cbn [fst]. unfold show_result. cbn [answer sources].
  eexists. split; [reflexivity |]. now apply bullets_follow_objects.
Qed.

Lemma page_lists_retrieved_chunks_witness :
  exists bullets,
    (on_get_answer (stub_backend election_stub) true "When is the election?"
       2 ∅ 0%nat []).1.1.1
    = ([ StMarkdown "### Answer";
         StWrite election_answer;
         StMarkdown "### Sources Used" ] ++ bullets)%list /\
    Forall2
      (fun obj bullet =>
         exists t n,
           properties obj !! "title" = Some t /\
           properties obj !! "chunk_number" = Some n /\
           bullet = source_bullet t n)
      [election_2024; election_day] bullets.
Proof.
  apply (page_lists_retrieved_chunks (stub_backend election_stub)
           "W"%char "hen is the election?" 2 ∅ 0%nat [] wiki_chunk 0%nat
           {| objects := [election_2024; election_day] |} 1%nat
           {| generated := election_answer;
              generative_objects := [election_2024; election_day] |} 2%nat);
    try reflexivity.
  constructor; [apply object_of_chunk_carries |].
  constructor; [apply object_of_chunk_carries | constructor].
Defined.

(** X10. A run of the handler never drops or replaces a cached result,
    and the only entry it can add is the one for the question and limit
    it was run with: every other key reads as before. *)
Theorem cache_only_gains_the_question_asked {W} (client : Backend W)
    button query num_chunks (cache : Cache) w tr :
  let cache' :=
    (on_get_answer client button query num_chunks cache w tr).1.1.2 in
  (forall key stored,
      cache !! key = Some stored -> cache' !! key = Some stored) /\
  (forall key, key <> (query, num_chunks) -> cache' !! key = cache !! key).
Proof.
  cbn zeta. rewrite on_get_answer_cases.
  destruct (button && py_truthy query); [| now split].
  destruct (cache !! (query, num_chunks)) as [stored0 |] eqn:Hcache;
    [now split |].
  destruct (retrieve_and_generate client query num_chunks w tr)
    as [[[e | r] w'] tr']; cbn [fst snd]; [now split |].
  unfold Cache in *. split.
  - intros key stored Hkey.
    destruct (decide (key = (query, num_chunks))) as [-> | Hne];
      [congruence |].
    now rewrite lookup_insert_ne.
  - intros key Hne. now rewrite lookup_insert_ne.
Qed.

Lemma returned_sources_within_limit {W} (client : Backend W)
    query num_chunks w tr r w' tr' :
  honours_limit client ->
  0 <= num_chunks ->
  retrieve_and_generate client query num_chunks w tr = (inr r, w', tr') ->
  Z.of_nat (length (sources r)) <= num_chunks.
Proof.
  intros Hlimit Hpos Hrun. apply retrieve_and_generate_returns in Hrun
    as (coll & w1 & reply & w2 & ctx & g & _ & Hhyb & _ & _ & Hsrc & _).
  apply comprehension_source_entry, Forall2_length in Hsrc.
  rewrite <- Hsrc. eapply Hlimit; [exact Hpos | exact Hhyb].
Qed.

(** X11. With a backend that honours the limit and a slider value that
    is not negative, a cache whose stored results all fit their limit
    still does after a run of the handler, and the page of that run has
    at most three widgets more than the limit, whether the result came
    from the backend or from the cache. *)
Theorem page_within_chunk_limit {W} (client : Backend W)
    button query num_chunks (cache : Cache) w tr shown cache' w' tr' :
  honours_limit client ->
  0 <= num_chunks ->
  cache_within_limits cache ->
  on_get_answer client button query num_chunks cache w tr
  = (shown, cache', w', tr') ->
  cache_within_limits cache' /\
  Z.of_nat (length shown) <= 3 + num_chunks.
Proof.
  intros Hlimit Hpos Hcache. rewrite on_get_answer_cases.
  assert (Hshow : forall r,
             Z.of_nat (length (sources r)) <= num_chunks ->
             Z.of_nat (length (show_result r)) <= 3 + num_chunks).
  { intros r Hr. unfold show_result. rewrite length_app, length_map.
    cbn [length]. lia. }
  destruct (button && py_truthy query).
  2: { intros [= <- <- _ _]. split; [exact Hcache | cbn; lia]. }
  destruct (cache !! (query, num_chunks)) as [stored |] eqn:Hkey.
  { intros [= <- <- _ _]. split; [exact Hcache |].
    apply Hshow. eapply Hcache. exact Hkey. }
  destruct (retrieve_and_generate client query num_chunks w tr)
    as [[[e | r] w0] tr0] eqn:Hrun.
  { intros [= <- <- _ _]. split; [exact Hcache | cbn; lia]. }
  intros [= <- <- _ _].
  pose proof (returned_sources_within_limit _ _ _ _ _ _ _ _
                Hlimit Hpos Hrun) as Hr.
  split; [| now apply Hshow].
  intros q n stored. unfold Cache in *.
  destruct (decide ((q, n) = (query, num_chunks))) as [[= -> ->] | Hne].
  - rewrite lookup_insert_eq. now intros [= <-].
  - rewrite lookup_insert_ne by congruence. apply Hcache.
Qed.

Lemma empty_cache_within_limits : cache_within_limits ∅.
Proof.
  intros q n stored Hkey. unfold Cache in *.
  now rewrite lookup_empty in Hkey.
Qed.

Lemma page_within_chunk_limit_witness :
  honours_limit (stub_backend election_stub) /\
  0 <= 2 /\
  cache_within_limits ∅ /\
  cache_within_limits
    (<[("When is the election?", 2) := election_result]> ∅) /\
  Z.of_nat (length (show_result election_result)) <= 3 + 2.
Proof.
  split; [apply stub_honours_limit |]. split; [lia |].
  split; [apply empty_cache_within_limits |].
  apply (page_within_chunk_limit (stub_backend election_stub) true
           "When is the election?" 2 ∅ 0%nat []
           (show_result election_result)
           (<[("When is the election?", 2) := election_result]> ∅) 2%nat
           (full_exchange wiki_chunk "When is the election?" 2)).
  - apply stub_honours_limit.
  - lia.
  - apply empty_cache_within_limits.
  - vm_compute. reflexivity.
Defined.

(** ** Sessions: the script run again and again *)

Lemma session_cons {W} (connect_to_my_db : W -> Exc (Backend W) * W)
    inputs later (app : App W) :
  session connect_to_my_db (inputs :: later) app
  = ((script connect_to_my_db inputs app).1
       :: (session connect_to_my_db later
             (script connect_to_my_db inputs app).2).1,
     (session connect_to_my_db later
        (script connect_to_my_db inputs app).2).2).
Proof.
  cbn [session].
  destruct (script connect_to_my_db inputs app) as [page app1].
  cbn [fst snd].
  destruct (session connect_to_my_db later app1) as [pages app2].
  reflexivity.
Qed.

(** What a run keeps, every session keeps; what a run's page satisfies,
    every page of a session satisfies. *)
Lemma session_invariant {W} (connect_to_my_db : W -> Exc (Backend W) * W)
    (P : App W -> Prop) (Q : Inputs -> list Element -> Prop) :
  (forall inputs app,
      P app ->
      P (script connect_to_my_db inputs app).2 /\
      Q inputs (script connect_to_my_db inputs app).1) ->
  forall runs app,
    P app ->
    P (session connect_to_my_db runs app).2 /\
    Forall2 Q runs (session connect_to_my_db runs app).1.
Proof.
  intros Hstep runs. induction runs as [| inputs later IH]; intros app Happ.
  - split; [exact Happ | constructor].
  - rewrite session_cons. cbn [fst snd].
    destruct (Hstep inputs app Happ) as [Happ1 Hpage].
    destruct (IH _ Happ1) as [Happ2 Hpages].
    split; [exact Happ2 | now constructor].
Qed.



(** A run that connects, spelled out. *)
Lemma script_connected {W} (connect_to_my_db : W -> Exc (Backend W) * W)
    inputs (app : App W) client w1 :
  connect_to_my_db (backend_state app) = (inr client, w1) ->
  script connect_to_my_db inputs app
  = (page_top
     ++ [StSuccess "Successfully connected to Weaviate!"]
     ++ page_inputs
     ++ map InMain
          (on_get_answer client (input_button inputs) (input_query inputs)
             (input_num_chunks inputs) (resource_cache app) w1 []).1.1.1
     ++ [StSidebarMarkdown sidebar_text],
     {| resource_cache :=
          (on_get_answer client (input_button inputs) (input_query inputs)
             (input_num_chunks inputs) (resource_cache app) w1 []).1.1.2;
        session_state := init_history (session_state app);
        backend_state :=
          (on_get_answer client (input_button inputs) (input_query inputs)
             (input_num_chunks inputs) (resource_cache app) w1 []).1.2;
        client_log :=
          client_log app ++ [Connect]
          ++ map Send
               (on_get_answer client (input_button inputs)
                  (input_query inputs) (input_num_chunks inputs)
                  (resource_cache app) w1 []).2
          ++ [Close] |}).
Proof.
  intros Hconnect. unfold script. rewrite Hconnect.
  destruct (on_get_answer client (input_button inputs) (input_query inputs)
              (input_num_chunks inputs) (resource_cache app) w1 [])
    as [[[shown cache'] w2] issued].
  reflexivity.
Qed.






Example failed_connection_logs_nothing :
  session (stub_connect (inl (BackendError "connection refused")))
    [ {| input_query := "When is the election?"; input_num_chunks := 2;
         input_button := true |} ]
    fresh_app
  = ([ page_top ++ [StConnectionError (BackendError "connection refused")] ],
     fresh_app).
Proof. vm_compute. reflexivity. Qed.

Lemma on_get_answer_cache_kept {W} (client : Backend W)
    button query num_chunks (cache : Cache) w tr key stored :
  cache !! key = Some stored ->
  (on_get_answer client button query num_chunks cache w tr).1.1.2 !! key
  = Some stored.
Proof.
  intros Hkey. rewrite on_get_answer_cases.
  destruct (button && py_truthy query); [| exact Hkey].
  destruct (cache !! (query, num_chunks)) as [stored0 |] eqn:Hcache;
    [exact Hkey |].
  destruct (retrieve_and_generate client query num_chunks w tr)
    as [[[e | r] w'] tr']; cbn [fst snd]; [exact Hkey |].
  unfold Cache in *. rewrite lookup_insert_ne; [exact Hkey |].
  intros <-. congruence.
Qed.

Lemma on_get_answer_hybrid {W} (client : Backend W)
    button query num_chunks (cache : Cache) w coll q n md props :
  QueryHybrid coll q n md props
  ∈ (on_get_answer client button query num_chunks cache w []).2 ->
  q = query /\ n = num_chunks /\ cache !! (query, num_chunks) = None.
Proof.
  rewrite on_get_answer_cases.
  destruct (button && py_truthy query);
    [| cbn [snd]; now rewrite elem_of_nil].
  destruct (cache !! (query, num_chunks)) as [stored |];
    [cbn [snd]; now rewrite elem_of_nil |].
  pose proof (hybrid_requests_carry_the_question client query num_chunks
                w [] coll q n md props) as Hreq.
  destruct (retrieve_and_generate client query num_chunks w [])
    as [[[e | r] w'] tr']; cbn [fst snd length drop] in *;
    intros Hin; destruct (Hreq Hin); auto.
Qed.

(** X13. A result in the cache is what the page shows for its question
    for the rest of the session: in every later run with the button
    pressed on that question and that limit, the page is either the
    connection failure, or the usual page with the stored answer and
    sources, nothing of which is asked from the backend again. *)
Theorem cached_answer_is_shown_for_the_whole_session {W}
    (connect_to_my_db : W -> Exc (Backend W) * W) runs (app : App W)
    query num_chunks stored :
  query <> EmptyString ->
  resource_cache app !! (query, num_chunks) = Some stored ->
  Forall2
    (fun inputs page =>
       input_button inputs = true ->
       input_query inputs = query ->
       input_num_chunks inputs = num_chunks ->
       (exists e, page = (page_top ++ [StConnectionError e])%list) \/
       page = (page_top
               ++ [StSuccess "Successfully connected to Weaviate!"]
               ++ page_inputs
               ++ map InMain (show_result stored)
               ++ [StSidebarMarkdown sidebar_text])%list)
    runs (session connect_to_my_db runs app).1.
Proof.
  intros Hquery Hstored.
  apply (session_invariant connect_to_my_db
           (fun a => resource_cache a !! (query, num_chunks) = Some stored));
    [| exact Hstored].
  clear app Hstored. intros inputs app Hstored.
  destruct (connect_to_my_db (backend_state app)) as [[e | client] w1]
    eqn:Hconnect.
  - unfold script. rewrite Hconnect. cbn [fst snd resource_cache].
    split; [exact Hstored |]. intros _ _ _. left. now exists e.
  - rewrite (script_connected _ _ _ _ _ Hconnect).
    cbn [fst snd resource_cache]. split.
    + now apply on_get_answer_cache_kept.
    + intros -> -> ->. right. rewrite on_get_answer_cases.
      destruct query as [| c rest]; [contradiction |].
      cbn [andb py_truthy]. now rewrite Hstored.
Qed.

Lemma cached_answer_is_shown_for_the_whole_session_witness :
  "When is the election?" <> EmptyString /\
  Forall2
    (fun inputs page =>
       input_button inputs = true ->
       input_query inputs = "When is the election?" ->
       input_num_chunks inputs = 2 ->
       (exists e, page = (page_top ++ [StConnectionError e])%list) \/
       page = (page_top
               ++ [StSuccess "Successfully connected to Weaviate!"]
               ++ page_inputs
               ++ map InMain (show_result election_result)
               ++ [StSidebarMarkdown sidebar_text])%list)
    [ {| input_query := "When is the election?"; input_num_chunks := 2;
         input_button := true |} ]
    (session (stub_connect (inr unreachable_stub))
       [ {| input_query := "When is the election?"; input_num_chunks := 2;
            input_button := true |} ]
       {| resource_cache :=
            <[("When is the election?", 2) := election_result]> ∅;
          session_state := ∅; backend_state := 0%nat;
          client_log := [] |}).1.
Proof.
  split; [discriminate |].
  apply (cached_answer_is_shown_for_the_whole_session
           (stub_connect (inr unreachable_stub))
           [ {| input_query := "When is the election?";
                input_num_chunks := 2; input_button := true |} ]
           {| resource_cache :=
                <[("When is the election?", 2) := election_result]> ∅;
              session_state := ∅; backend_state := 0%nat;
              client_log := [] |}
           "When is the election?" 2 election_result).
  - discriminate.
  - reflexivity.
Defined.

(** X14. A question whose result is in the cache is never searched
    again: whatever runs follow, the log grows without any hybrid search
    for that question and that limit. *)
Theorem cached_question_is_never_searched_again {W}
    (connect_to_my_db : W -> Exc (Backend W) * W) runs (app : App W)
    query num_chunks stored :
  resource_cache app !! (query, num_chunks) = Some stored ->
  exists added,
    client_log (session connect_to_my_db runs app).2
    = (client_log app ++ added)%list /\
    forall coll md props,
      Send (QueryHybrid coll query num_chunks md props) ∉ added.
Proof.
  intros Hstored.
  destruct (session_invariant connect_to_my_db
              (fun a =>
                 resource_cache a !! (query, num_chunks) = Some stored /\
                 exists added,
                   client_log a = (client_log app ++ added)%list /\
                   forall coll md props,
                     Send (QueryHybrid coll query num_chunks md props)
                     ∉ added)
              (fun _ _ => True)) with (runs := runs) (app := app)
    as [[_ Hlog] _]; [| | exact Hlog].
  - clear runs. intros inputs a (Hkept & added & Hlog & Hnone).
    split; [| exact I].
    destruct (connect_to_my_db (backend_state a)) as [[e | client] w1]
      eqn:Hconnect.
    + unfold script. rewrite Hconnect. cbn [snd resource_cache client_log].
      split; [exact Hkept |]. exists added. auto.
    + rewrite (script_connected _ _ _ _ _ Hconnect).
      cbn [snd resource_cache client_log]. split.
      * now apply on_get_answer_cache_kept.
      * eexists. split; [rewrite Hlog, <- app_assoc; reflexivity |].
        intros coll md props.
        rewrite !elem_of_app, !elem_of_cons, !elem_of_nil.
        intros [Hin | [[[=] | []] | [Hin | [[=] | []]]]].
        -- now apply Hnone in Hin.
        -- apply list_elem_of_fmap in Hin as (req & [= <-] & Hreq).
           apply on_get_answer_hybrid in Hreq as (<- & <- & Hmiss).
           congruence.
  - split; [exact Hstored |]. exists []. split; [now rewrite app_nil_r |].
    intros coll md props. apply not_elem_of_nil.
Qed.

Lemma cached_question_is_never_searched_again_witness :
  exists added,
    client_log
      (session (stub_connect (inr election_stub))
         [ {| input_query := "When is the election?"; input_num_chunks := 2;
              input_button := true |};
           {| input_query := "When is the election?"; input_num_chunks := 3;
              input_button := true |} ]
         {| resource_cache :=
              <[("When is the election?", 2) := election_result]> ∅;
            session_state := ∅; backend_state := 0%nat;
            client_log := [] |}).2
    = ([] ++ added)%list /\
    forall coll md props,
      Send (QueryHybrid coll "When is the election?" 2 md props) ∉ added.
Proof.
  apply (cached_question_is_never_searched_again
           (stub_connect (inr election_stub))
           [ {| input_query := "When is the election?";
                input_num_chunks := 2; input_button := true |};
             {| input_query := "When is the election?";
                input_num_chunks := 3; input_button := true |} ]
           {| resource_cache :=
                <[("When is the election?", 2) := election_result]> ∅;
              session_state := ∅; backend_state := 0%nat;
              client_log := [] |}
           "When is the election?" 2 election_result).
  reflexivity.
Defined.

Lemma init_history_lookup (state : gmap string (list PyVal)) key :
  init_history state !! key
  = if decide (key = "history")
    then Some (default [] (state !! "history"))
    else state !! key.
Proof.
  unfold init_history.
  destruct (state !! "history") as [h |] eqn:Hh.
  - destruct (decide (key = "history")) as [-> | Hne]; [| reflexivity].
    now rewrite Hh.
  - destruct (decide (key = "history")) as [-> | Hne].
    + apply lookup_insert_eq.
    + now apply lookup_insert_ne.
Qed.

(** X15. The script never records anything in the session state.  Over
    any session every key but [history] reads as before, and [history]
    is as it was, or the empty list when there was none and a run got as
    far as line 121: the questions asked are not kept. *)
Theorem history_is_only_initialised {W}
    (connect_to_my_db : W -> Exc (Backend W) * W) runs (app : App W) :
  (forall key,
      key <> "history" ->
      session_state (session connect_to_my_db runs app).2 !! key
      = session_state app !! key) /\
  (session_state (session connect_to_my_db runs app).2 !! "history"
   = session_state app !! "history" \/
   session_state app !! "history" = None /\
   session_state (session connect_to_my_db runs app).2 !! "history"
   = Some []).
Proof.
  destruct (session_invariant connect_to_my_db
              (fun a =>
                 (forall key,
                     key <> "history" ->
                     session_state a !! key = session_state app !! key) /\
                 (session_state a !! "history"
                  = session_state app !! "history" \/
                  session_state app !! "history" = None /\
                  session_state a !! "history" = Some []))
              (fun _ _ => True)) with (runs := runs) (app := app)
    as [Hfinal _]; [| | exact Hfinal].
  - clear runs. intros inputs a (Hother & Hhistory). split; [| exact I].
    destruct (connect_to_my_db (backend_state a)) as [[e | client] w1]
      eqn:Hconnect.
    + unfold script. rewrite Hconnect. cbn [snd session_state]. auto.
    + rewrite (script_connected _ _ _ _ _ Hconnect).
      cbn [snd session_state]. split.
      * intros key Hne. rewrite init_history_lookup.
        destruct (decide (key = "history")); [contradiction | auto].
      * rewrite init_history_lookup.
        destruct (decide ("history" = "history")); [| contradiction].
        destruct Hhistory as [Hsame | [Hnone Hempty]].
        -- rewrite Hsame.
           destruct (session_state app !! "history") as [h |];
             [now left | right; auto].
        -- rewrite Hempty. right. auto.
  - auto.
Qed.

Example history_after_two_runs :
  session_state
    (session (stub_connect (inr election_stub))
       [ {| input_query := "When is the election?"; input_num_chunks := 2;
            input_button := true |};
         {| input_query := "Who won in 1824?"; input_num_chunks := 3;
            input_button := true |} ]
       fresh_app).2 !! "history"
  = Some [].
Proof. vm_compute. reflexivity. Qed.

(** X16. The handler shows nothing exactly when the button is not pressed
    or the question is empty: a press on a question of at least one
    character always puts something on the page, an answer with its
    headings or an error with its traceback. *)
Theorem page_is_empty_iff_nothing_was_asked {W} (client : Backend W)
    button query num_chunks (cache : Cache) w tr :
  (on_get_answer client button query num_chunks cache w tr).1.1.1 = []
  <-> button = false \/ query = EmptyString.
Proof.
  rewrite on_get_answer_cases. split.
  - destruct button; [| now left].
    destruct query as [| c rest]; [now right |].
    cbn [andb py_truthy].
    destruct (cache !! (String c rest, num_chunks)) as [stored |];
      [discriminate |].
    destruct (retrieve_and_generate client (String c rest) num_chunks w tr)
      as [[[e | r] w'] tr']; discriminate.
  - intros [-> | ->]; [reflexivity |]. now rewrite andb_false_r.
Qed.
